(** * Thalassa: the point-in-mesh and nearest-node pipeline of [thalassa/api.py]

    A shallow embedding of the functions of [thalassa/api.py] that carry the
    logic of the dashboard (containment test, time-series extraction, point
    table construction, mesh polygon generation), over a small model of the
    array libraries they call.  Python exceptions are values of [exn] and
    every function that can raise returns a [result]. *)

From Stdlib Require Import List ZArith QArith Bool String Lia Lqa.
Import ListNotations.

Set Implicit Arguments.
Set Warnings "-register-all".

(** ** Exceptions and the error monad *)

Inductive exn : Type :=
| ValueError (msg : string)
| IndexError
| KeyError (key : string)
| NameError (name : string)
| AttributeError (name : string)
| TypeError.

Inductive result (A : Type) : Type :=
| Ok (a : A)
| Raise (e : exn).

Arguments Ok {A} a.
Arguments Raise {A} e.

Definition bind {A B : Type} (m : result A) (k : A -> result B) : result B :=
  match m with
  | Ok a => k a
  | Raise e => Raise e
  end.

Notation "x <- m ;; k" := (bind m (fun x => k))
  (at level 61, m at next level, right associativity).
Notation "' pat <- m ;; k" := (bind m (fun x => match x with pat => k end))
  (at level 61, pat pattern, m at next level, right associativity).

Definition of_option {A : Type} (o : option A) (e : exn) : result A :=
  match o with
  | Some a => Ok a
  | None => Raise e
  end.

Section MapM.
Variables A B : Type.
Variable f : A -> result B.

Fixpoint mapM (l : list A) : result (list B) :=
  match l with
  | [] => Ok []
  | x :: r => y <- f x ;; ys <- mapM r ;; Ok (y :: ys)
  end.
End MapM.

Section FoldM.
Variables A B : Type.
Variable f : A -> B -> result A.

Fixpoint foldM (l : list B) (acc : A) : result A :=
  match l with
  | [] => Ok acc
  | x :: r => acc' <- f acc x ;; foldM r acc'
  end.
End FoldM.

(** ** Floating-point values

    A float is either NaN or a finite number; finite numbers are modelled
    by rationals, so rounding is not part of the model. *)

Inductive float : Type :=
| NaN
| Num (q : Q).

Definition isnan (x : float) : bool :=
  match x with
  | NaN => true
  | Num _ => false
  end.

(** [nanmax]/[nanmin]: the NaN-skipping reductions xarray applies to float
    data ([skipna] is on by default for floats). *)
Definition nanmax (a b : float) : float :=
  match a, b with
  | NaN, _ => b
  | _, NaN => a
  | Num x, Num y => if Qle_bool x y then Num y else Num x
  end.

Definition nanmin (a b : float) : float :=
  match a, b with
  | NaN, _ => b
  | _, NaN => a
  | Num x, Num y => if Qle_bool x y then Num x else Num y
  end.

(** ** Python and numpy indexing *)

(** An integer index into a sequence of length [n]: negative indices count
    from the end, anything outside [-n, n) raises [IndexError]. *)
Definition normalize_index (n : nat) (i : Z) : result nat :=
  let len := Z.of_nat n in
  let j := if (i <? 0)%Z then (i + len)%Z else i in
  if ((0 <=? j)%Z && (j <? len)%Z)%bool then Ok (Z.to_nat j) else Raise IndexError.

Definition getitem {A : Type} (l : list A) (i : Z) : result A :=
  j <- normalize_index (List.length l) i ;;
  of_option (nth_error l j) IndexError.

(** Fancy indexing [a[idx]] of a 1-D array by an integer array. *)
Definition take {A : Type} (a : list A) (idx : list Z) : result (list A) :=
  mapM (getitem a) idx.

Fixpoint lookup {A : Type} (k : string) (l : list (string * A)) : option A :=
  match l with
  | [] => None
  | (k', v) :: r => if String.eqb k k' then Some v else lookup k r
  end.

Fixpoint index_of (k : string) (l : list string) : option nat :=
  match l with
  | [] => None
  | k' :: r => if String.eqb k k' then Some O else option_map S (index_of k r)
  end.

Fixpoint remove_nth {A : Type} (k : nat) (l : list A) : list A :=
  match l, k with
  | [], _ => []
  | _ :: r, O => r
  | x :: r, S k' => x :: remove_nth k' r
  end.

Definition mem (k : string) (l : list string) : bool :=
  existsb (String.eqb k) l.

(** ** N-dimensional arrays of floats *)

Inductive nd : Type :=
| Sc (v : float)
| Ar (xs : list nd).

(** Positional selection of entry [i] along axis [k]; the axis disappears. *)
Fixpoint isel_axis (k : nat) (i : nat) (a : nd) {struct a} : result nd :=
  match a with
  | Sc _ => Raise IndexError
  | Ar xs =>
      match k with
      | O => of_option (nth_error xs i) IndexError
      | S k' => ys <- mapM (isel_axis k' i) xs ;; Ok (Ar ys)
      end
  end.

Section Zip.
Variable f : float -> float -> float.

(** Element-wise combination of two arrays of the same shape. *)
Fixpoint nd_zip (a b : nd) {struct a} : result nd :=
  match a, b with
  | Sc x, Sc y => Ok (Sc (f x y))
  | Ar xs, Ar ys =>
      zs <- (fix go (l m : list nd) {struct l} : result (list nd) :=
               match l, m with
               | [], [] => Ok []
               | x :: l', y :: m' =>
                   z <- nd_zip x y ;; zs <- go l' m' ;; Ok (z :: zs)
               | _, _ => Raise (ValueError "operands could not be broadcast together")
               end) xs ys ;;
      Ok (Ar zs)
  | _, _ => Raise (ValueError "operands could not be broadcast together")
  end.
End Zip.

(** Reduction along axis [k] with the binary operation [f]; numpy refuses
    to reduce an axis of length zero with an operation that has no
    identity. *)
Fixpoint reduce_axis (f : float -> float -> float) (k : nat) (a : nd)
  {struct a} : result nd :=
  match a with
  | Sc _ => Raise (ValueError "axis out of bounds")
  | Ar xs =>
      match k with
      | O =>
          match xs with
          | [] => Raise (ValueError "zero-size array to reduction operation")
          | x :: r => foldM (nd_zip f) r x
          end
      | S k' => ys <- mapM (reduce_axis f k') xs ;; Ok (Ar ys)
      end
  end.

(** All the entries, in row-major order. *)
Fixpoint ravel (a : nd) : list float :=
  match a with
  | Sc v => [v]
  | Ar xs => flat_map ravel xs
  end.

(** Reduction over every axis at once (the argument-free [.min()] and
    [.max()]). *)
Definition reduce_all (f : float -> float -> float) (a : nd) : result float :=
  match ravel a with
  | [] => Raise (ValueError "zero-size array to reduction operation")
  | x :: r => Ok (fold_left f r x)
  end.

(** The entry at a full multi-index. *)
Fixpoint nd_at (idx : list nat) (a : nd) {struct idx} : result float :=
  match idx, a with
  | [], Sc v => Ok v
  | i :: r, Ar xs => x <- of_option (nth_error xs i) IndexError ;; nd_at r x
  | _, _ => Raise IndexError
  end.

(** Length of axis [k] (read along the first entries). *)
Fixpoint axis_len (k : nat) (a : nd) {struct a} : nat :=
  match a with
  | Sc _ => O
  | Ar xs =>
      match k with
      | O => List.length xs
      | S k' => match xs with
                | [] => O
                | x :: _ => axis_len k' x
                end
      end
  end.

Definition item (a : nd) : result float :=
  match a with
  | Sc v => Ok v
  | Ar _ => Raise TypeError
  end.

(** ** xarray: labelled arrays and datasets *)

Record DataArray : Type := mkDataArray {
  da_dims : list string;
  da_values : nd
}.

(** A coordinate is either the index of a dimension (one label per
    position) or a scalar left behind by a selection. *)
Inductive coord : Type :=
| IndexCoord (labels : list Z)
| ScalarCoord (label : Z).

(** The mesh dataset: float-valued variables over named dimensions (among
    them [lon] and [lat] over [node]), the coordinates, and the integer
    connectivity table [triface_nodes] of shape (n, 3). *)
Record Dataset : Type := mkDataset {
  ds_dims : list (string * nat);
  ds_coords : list (string * coord);
  ds_vars : list (string * DataArray);
  ds_triface_nodes : option (list (Z * Z * Z))
}.

Definition has_dim (d : string) (ds : Dataset) : bool :=
  mem d (map fst ds.(ds_dims)).

Definition dim_size (d : string) (ds : Dataset) : result nat :=
  of_option (lookup d ds.(ds_dims)) (ValueError "Dimensions do not exist").

(** [DataArray.isel(d=i)]: the dimension must be one of the array's. *)
Definition da_isel (d : string) (i : Z) (da : DataArray) : result DataArray :=
  match index_of d da.(da_dims) with
  | None => Raise (ValueError "Dimensions do not exist")
  | Some k =>
      j <- normalize_index (axis_len k da.(da_values)) i ;;
      v <- isel_axis k j da.(da_values) ;;
      Ok (mkDataArray (remove_nth k da.(da_dims)) v)
  end.

(** Inside [Dataset.isel] a variable that lacks the dimension is kept. *)
Definition var_isel (d : string) (i : Z) (da : DataArray) : result DataArray :=
  if mem d da.(da_dims) then da_isel d i da else Ok da.

Definition coord_isel (d : string) (i : Z) (c : string * coord)
  : result (string * coord) :=
  match c with
  | (name, IndexCoord labels) =>
      if String.eqb name d
      then l <- getitem labels i ;; Ok (name, ScalarCoord l)
      else Ok c
  | (_, ScalarCoord _) => Ok c
  end.

Definition on_snd {A B : Type} (f : A -> result B) (p : string * A)
  : result (string * B) :=
  b <- f (snd p) ;; Ok (fst p, b).

Definition remove_dim (d : string) (dims : list (string * nat))
  : list (string * nat) :=
  filter (fun p => negb (String.eqb (fst p) d)) dims.

(** [ds.isel(d=i)]: every variable and coordinate over [d] is indexed at
    position [i] and the dimension disappears. *)
Definition ds_isel (d : string) (i : Z) (ds : Dataset) : result Dataset :=
  n <- dim_size d ds ;;
  _ <- normalize_index n i ;;
  vars <- mapM (on_snd (var_isel d i)) ds.(ds_vars) ;;
  coords <- mapM (coord_isel d i) ds.(ds_coords) ;;
  Ok (mkDataset (remove_dim d ds.(ds_dims)) coords vars ds.(ds_triface_nodes)).

(** [ds[name]] *)
Definition ds_getitem (name : string) (ds : Dataset) : result DataArray :=
  of_option (lookup name ds.(ds_vars)) (KeyError name).

Definition dims_used (vars : list (string * DataArray)) : list string :=
  flat_map (fun p => da_dims (snd p)) vars.

Definition keep_coord (used : list string) (c : string * coord) : bool :=
  match snd c with
  | IndexCoord _ => mem (fst c) used
  | ScalarCoord _ => true
  end.

(** [ds[[c1, ..., cn]]]: the sub-dataset of the listed variables, with the
    dimensions and coordinates they use. *)
Definition ds_getitems (columns : list string) (ds : Dataset) : result Dataset :=
  vars <- mapM (fun c => da <- ds_getitem c ds ;; Ok (c, da)) columns ;;
  let used := dims_used vars in
  Ok (mkDataset (filter (fun p => mem (fst p) used) ds.(ds_dims))
                (filter (keep_coord used) ds.(ds_coords))
                vars
                None).

Definition var_reduce (f : float -> float -> float) (d : string)
  (da : DataArray) : result DataArray :=
  match index_of d da.(da_dims) with
  | None => Ok da
  | Some k =>
      v <- reduce_axis f k da.(da_values) ;;
      Ok (mkDataArray (remove_nth k da.(da_dims)) v)
  end.

(** [ds.max(d)] and [ds.min(d)]: every variable over [d] is reduced along
    it, the others are kept, and the dimension and its index go away. *)
Definition ds_reduce (f : float -> float -> float) (d : string) (ds : Dataset)
  : result Dataset :=
  if negb (has_dim d ds)
  then Raise (ValueError "Dataset does not contain the dimensions")
  else
    vars <- mapM (on_snd (var_reduce f d)) ds.(ds_vars) ;;
    Ok (mkDataset (remove_dim d ds.(ds_dims))
                  (filter (fun c => negb (String.eqb (fst c) d)) ds.(ds_coords))
                  vars
                  ds.(ds_triface_nodes)).

Definition ds_max : string -> Dataset -> result Dataset := ds_reduce nanmax.
Definition ds_min : string -> Dataset -> result Dataset := ds_reduce nanmin.

Fixpoint position (z : Z) (l : list Z) : option nat :=
  match l with
  | [] => None
  | x :: r => if (x =? z)%Z then Some O else option_map S (position z r)
  end.

(** [ds.sel({d: label})]: label-based selection through the index of [d]. *)
Definition ds_sel (d : string) (label : Z) (ds : Dataset) : result Dataset :=
  match lookup d ds.(ds_coords) with
  | Some (IndexCoord labels) =>
      p <- of_option (position label labels) (KeyError d) ;;
      ds_isel d (Z.of_nat p) ds
  | _ => Raise (KeyError d)
  end.

(** ** pandas: the point table *)

Inductive cell : Type :=
| CFloat (v : float)
| CLabel (z : Z).

Record DataFrame : Type := mkDataFrame {
  df_index : list string;
  df_columns : list string;
  df_rows : list (list cell)
}.

(** Every combination of positions along the dimensions, the first
    dimension varying slowest. *)
Fixpoint multi_indices (dims : list (string * nat)) : list (list (string * nat)) :=
  match dims with
  | [] => [[]]
  | (d, n) :: rest =>
      flat_map (fun i => map (cons (d, i)) (multi_indices rest)) (seq 0 n)
  end.

(** The entry of a variable at a combination of positions; a variable is
    broadcast along the dimensions it does not have. *)
Definition da_at (env : list (string * nat)) (da : DataArray) : result float :=
  idx <- mapM (fun d => of_option (lookup d env) (ValueError "Dimensions do not exist"))
              da.(da_dims) ;;
  nd_at idx da.(da_values).

Definition scalar_coords (cs : list (string * coord)) : list (string * Z) :=
  flat_map (fun c => match snd c with
                     | ScalarCoord z => [(fst c, z)]
                     | IndexCoord _ => []
                     end) cs.

(** [ds.to_dataframe()]: one row per combination of positions, one column
    per data variable and per scalar coordinate, the dimensions as index. *)
Definition to_dataframe (ds : Dataset) : result DataFrame :=
  let scs := scalar_coords ds.(ds_coords) in
  rows <- mapM (fun env =>
                  vs <- mapM (fun v => da_at env (snd v)) ds.(ds_vars) ;;
                  Ok (map CFloat vs ++ map (fun c => CLabel (snd c)) scs))
               (multi_indices ds.(ds_dims)) ;;
  Ok (mkDataFrame (map fst ds.(ds_dims))
                  (map fst ds.(ds_vars) ++ map fst scs)
                  rows).

(** [df.drop(columns=name)] *)
Definition drop_column (name : string) (df : DataFrame) : result DataFrame :=
  match index_of name df.(df_columns) with
  | None => Raise (KeyError name)
  | Some k =>
      Ok (mkDataFrame df.(df_index)
                      (remove_nth k df.(df_columns))
                      (map (remove_nth k) df.(df_rows)))
  end.

(** [df.reset_index(drop=True)] *)
Definition reset_index_drop (df : DataFrame) : DataFrame :=
  mkDataFrame [] df.(df_columns) df.(df_rows).

(** ** geoviews elements *)

Record Points : Type := mkPoints {
  pts_data : DataFrame;
  pts_kdims : list string;
  pts_vdims : list string
}.

Record TriMesh : Type := mkTriMesh {
  tm_simplices : list (Z * Z * Z);
  tm_nodes : Points
}.

(** ** [create_trimesh] *)

(** The [timestamp] argument: [str | pd.Timestamp | None]. *)
Inductive timestamp : Type :=
| TsNone
| TsStr (s : string)
| TsTime (t : Z).

(** [timestamp == s] for a string literal [s]. *)
Definition ts_eq_str (ts : timestamp) (s : string) : bool :=
  match ts with
  | TsStr s' => String.eqb s' s
  | _ => false
  end.

(** Python truthiness of the argument. *)
Definition truthy (ts : timestamp) : bool :=
  match ts with
  | TsNone => false
  | TsStr s => negb (String.eqb s "")
  | TsTime _ => true
  end.

Section CreateTrimesh.
(** How pandas reads a date string as a time label. *)
Variable parse_datetime : string -> option Z.

Definition time_label (ts : timestamp) : result Z :=
  match ts with
  | TsTime t => Ok t
  | TsStr s => of_option (parse_datetime s) (KeyError "time")
  | TsNone => Raise TypeError
  end.

Definition create_trimesh (ds : Dataset) (variable : string)
  (ts : timestamp) (layer : option Z) : result TriMesh :=
  let columns := ["lon"; "lat"; variable]%string in
  ds <- match layer with
        | Some l => ds_isel "layer" l ds
        | None => Ok ds
        end ;;
  points_df <-
    (if ts_eq_str ts "max" then
       sub <- ds_getitems columns ds ;;
       r <- ds_max "time" sub ;;
       to_dataframe r
     else if ts_eq_str ts "min" then
       sub <- ds_getitems columns ds ;;
       r <- ds_min "time" sub ;;
       to_dataframe r
     else if truthy ts then
       t <- time_label ts ;;
       sel <- ds_sel "time" t ds ;;
       sub <- ds_getitems columns sel ;;
       df <- to_dataframe sub ;;
       drop_column "time" df
     else
       sub <- ds_getitems columns ds ;;
       to_dataframe sub) ;;
  let points_df := reset_index_drop points_df in
  let points_gv := mkPoints points_df ["lon"; "lat"]%string [variable] in
  simplices <- of_option ds.(ds_triface_nodes) (AttributeError "triface_nodes") ;;
  Ok (mkTriMesh simplices points_gv).
End CreateTrimesh.

(** ** The rasterized map and [is_point_in_the_mesh] *)

(** A rasterized image: a regular grid with one coordinate list per axis
    and, for each value dimension, a table [data[j][i]] holding the value
    at latitude [j] and longitude [i]; pixels the mesh does not cover hold
    NaN. *)
Record Image : Type := mkImage {
  img_lon : list Q;
  img_lat : list Q;
  img_data : list (string * list (list float))
}.

(** The rasterized [DynamicMap]: the elements rendered so far
    ([raster.values()]) and the names of its deep dimensions
    ([raster.ddims]). *)
Record Raster : Type := mkRaster {
  r_values : list Image;
  r_ddims : list string
}.

Definition between (a b x : Q) : bool :=
  (Qle_bool a x && Qle_bool x b) || (Qle_bool b x && Qle_bool x a).

(** Linear interpolation between two neighbouring grid points; NaN at
    either end gives NaN. *)
Definition lerp (x0 x1 : Q) (v0 v1 : float) (x : Q) : float :=
  match v0, v1 with
  | Num a, Num b => Num (a + (b - a) * ((x - x0) / (x1 - x0)))
  | _, _ => NaN
  end.

(** One-dimensional linear interpolation: the value on the first segment
    of the grid that contains [x], NaN when no segment does. *)
Fixpoint interp1d (xs : list Q) (vs : list float) (x : Q) : float :=
  match xs, vs with
  | x0 :: ((x1 :: _) as xs'), v0 :: ((v1 :: _) as vs') =>
      if between x0 x1 x then lerp x0 x1 v0 v1 x else interp1d xs' vs' x
  | _, _ => NaN
  end.

(** [da.interp(dict(lon=lon, lat=lat))] with xarray's defaults (linear
    method, NaN fill outside the grid): along [lon] in every row, then
    along [lat]. *)
Definition interp (img : Image) (data : list (list float)) (lon lat : float)
  : float :=
  match lon, lat with
  | Num x, Num y =>
      interp1d img.(img_lat)
               (map (fun row => interp1d img.(img_lon) row x) data) y
  | _, _ => NaN
  end.

Definition is_point_in_the_mesh (raster : Raster) (lon lat : float) : result bool :=
  raster_dataset <- of_option (hd_error raster.(r_values)) IndexError ;;
  data_var_name <- of_option (hd_error (rev raster.(r_ddims))) IndexError ;;
  data <- of_option (lookup data_var_name raster_dataset.(img_data))
                    (KeyError data_var_name) ;;
  let interpolated := interp raster_dataset data lon lat in
  Ok (negb (isnan interpolated)).

(** ** holoviews: curves, streams and dynamic maps *)

(** A plot title, kept as the values that are formatted into it:
    [f"{variable} - Lon={lon:.3f} Lat={lat:.3f}"] in the stream callback,
    [f"Lon={x:.3f} Lat={y:.3f} - {node_lon}, {node_lat}"] in
    [plot_timeseries]. *)
Inductive Title : Type :=
| mkTitle (variable : string) (lon lat : float)
| mkPlotTitle (x y : float) (node_lon node_lat : DataArray).

Record Opts : Type := mkOpts {
  o_title : Title;
  o_framewise : bool;
  o_padding : Q;
  o_show_grid : bool;
  o_tools : list string
}.

Inductive curve_data : Type :=
| NoData
| Series (da : DataArray).

Record Curve : Type := mkCurve {
  c_data : curve_data;
  c_redim_range : option (string * (float * float));
  c_opts : Opts
}.

(** The options both branches of the callback pass to [.opts]. *)
Definition curve_opts (title : Title) : Opts :=
  mkOpts title true (1 # 10) true ["hover"%string].

Inductive stream_class : Type :=
| Tap
| PointerXY
| OtherStream (name : string).

Record StreamInstance : Type := mkStream {
  st_class : stream_class;
  st_x : Z;
  st_y : Z;
  st_source : Raster
}.

Record DynamicMap : Type := mkDynamicMap {
  dm_callback : float -> float -> result Curve;
  dm_streams : list StreamInstance
}.

(** [stream_class in {Tap, PointerXY}] *)
Definition in_tap_pointer (c : stream_class) : bool :=
  match c with
  | Tap | PointerXY => true
  | OtherStream _ => false
  end.

(** [ds.name]: attribute access to a variable. *)
Definition ds_getattr (name : string) (ds : Dataset) : result DataArray :=
  of_option (lookup name ds.(ds_vars)) (AttributeError name).

Definition unsupported_stream : string :=
  "Unsupported Stream class. Please choose either Tap or PointerXY".

(** Modelled from the spec: [get_index_of_nearest_node] is imported from
    [thalassa/utils.py], which is not among the sources.  The spec calls it
    the nearest-node lookup: the position of the mesh node closest to the
    given point, here by squared distance in the lon/lat plane, the first
    such node in case of a tie.  It is used to instantiate the functions
    below on concrete data; the statements about them hold for any
    implementation. *)
Definition sq_dist (lon lat : Q) (p : float * float) : option Q :=
  match p with
  | (Num a, Num b) => Some ((a - lon) * (a - lon) + (b - lat) * (b - lat))
  | _ => None
  end.

Fixpoint argmin_from (ds : list (option Q)) (i : nat) (best : nat * Q) : nat :=
  match ds with
  | [] => fst best
  | None :: r => argmin_from r (S i) best
  | Some d :: r =>
      if Qle_bool (snd best) d then argmin_from r (S i) best
      else argmin_from r (S i) (i, d)
  end.

Fixpoint argmin (ds : list (option Q)) (i : nat) : option nat :=
  match ds with
  | [] => None
  | None :: r => argmin r (S i)
  | Some d :: r => Some (argmin_from r (S i) (i, d))
  end.

Definition floats_1d (a : nd) : result (list float) :=
  match a with
  | Sc _ => Raise IndexError
  | Ar xs => mapM item xs
  end.

Definition nearest_node_model (ds : Dataset) (lon lat : float) : result Z :=
  lons <- (a <- ds_getattr "lon" ds ;; floats_1d a.(da_values)) ;;
  lats <- (a <- ds_getattr "lat" ds ;; floats_1d a.(da_values)) ;;
  match lon, lat with
  | Num x, Num y =>
      i <- of_option (argmin (map (sq_dist x y) (combine lons lats)) O)
                     (ValueError "attempt to get argmin of an empty sequence") ;;
      Ok (Z.of_nat i)
  | _, _ => Raise (ValueError "All-NaN slice encountered")
  end.

(** ** Python name lookup, for [plot_timeseries] *)

Inductive pyval : Type :=
| VDataset (ds : Dataset)
| VArray (a : DataArray)
| VFloat (x : float)
| VInt (z : Z)
| VStr (s : string)
| VObject (name : string).

(** The names bound at module level in [thalassa/api.py]: the imports, the
    logger, the functions, and what the interpreter binds in every
    module. *)
Definition api_globals : list string :=
  [ "__name__"; "__doc__"; "__package__"; "__loader__"; "__spec__";
    "__file__"; "__cached__"; "__builtins__";
    "annotations"; "logging"; "gpd"; "gv"; "hv"; "np"; "pd"; "pygeos";
    "shapely"; "xr"; "dynspread"; "rasterize"; "PointerXY"; "Tap"; "Stream";
    "get_index_of_nearest_node"; "logger";
    "create_trimesh"; "get_tiles"; "get_wireframe"; "get_raster";
    "is_point_in_the_mesh"; "_get_stream_timeseries"; "get_tap_timeseries";
    "get_pointer_timeseries"; "extract_timeseries"; "plot_timeseries";
    "generate_mesh_polygon" ]%string.

Definition python_builtins : list string :=
  [ "abs"; "aiter"; "all"; "anext"; "any"; "ascii"; "bin"; "bool";
    "breakpoint"; "bytearray"; "bytes"; "callable"; "chr"; "classmethod";
    "compile"; "complex"; "copyright"; "credits"; "delattr"; "dict"; "dir";
    "divmod"; "enumerate"; "eval"; "exec"; "exit"; "filter"; "float";
    "format"; "frozenset"; "getattr"; "globals"; "hasattr"; "hash"; "help";
    "hex"; "id"; "input"; "int"; "isinstance"; "issubclass"; "iter"; "len";
    "license"; "list"; "locals"; "map"; "max"; "memoryview"; "min"; "next";
    "object"; "oct"; "open"; "ord"; "pow"; "print"; "property"; "quit";
    "range"; "repr"; "reversed"; "round"; "set"; "setattr"; "slice";
    "sorted"; "staticmethod"; "str"; "sum"; "super"; "tuple"; "type";
    "vars"; "zip"; "__import__"; "__build_class__"; "__debug__";
    "True"; "False"; "None"; "Ellipsis"; "NotImplemented";
    "ArithmeticError"; "AssertionError"; "AttributeError"; "BaseException";
    "BlockingIOError"; "BrokenPipeError"; "BufferError"; "BytesWarning";
    "ChildProcessError"; "ConnectionAbortedError"; "ConnectionError";
    "ConnectionRefusedError"; "ConnectionResetError"; "DeprecationWarning";
    "EOFError"; "EncodingWarning"; "EnvironmentError"; "Exception";
    "FileExistsError"; "FileNotFoundError"; "FloatingPointError";
    "FutureWarning"; "GeneratorExit"; "IOError"; "ImportError";
    "ImportWarning"; "IndentationError"; "IndexError"; "InterruptedError";
    "IsADirectoryError"; "KeyError"; "KeyboardInterrupt"; "LookupError";
    "MemoryError"; "ModuleNotFoundError"; "NameError"; "NotADirectoryError";
    "NotImplementedError"; "OSError"; "OverflowError";
    "PendingDeprecationWarning"; "PermissionError"; "ProcessLookupError";
    "RecursionError"; "ReferenceError"; "ResourceWarning"; "RuntimeError";
    "RuntimeWarning"; "StopAsyncIteration"; "StopIteration"; "SyntaxError";
    "SyntaxWarning"; "SystemError"; "SystemExit"; "TabError"; "TimeoutError";
    "TypeError"; "UnboundLocalError"; "UnicodeDecodeError";
    "UnicodeEncodeError"; "UnicodeError"; "UnicodeTranslateError";
    "UnicodeWarning"; "UserWarning"; "ValueError"; "Warning";
    "ZeroDivisionError" ]%string.

(** Loading a name inside a function: a local binding wins, then a module
    global, then a builtin; otherwise [NameError]. *)
Definition load_name (scope : list (string * pyval)) (name : string)
  : result pyval :=
  match lookup name scope with
  | Some v => Ok v
  | None =>
      if mem name api_globals || mem name python_builtins
      then Ok (VObject name)
      else Raise (NameError name)
  end.

Definition as_dataset (v : pyval) : result Dataset :=
  match v with VDataset ds => Ok ds | _ => Raise TypeError end.

Definition as_array (v : pyval) : result DataArray :=
  match v with VArray a => Ok a | _ => Raise TypeError end.

Definition as_float (v : pyval) : result float :=
  match v with VFloat x => Ok x | _ => Raise TypeError end.

Definition as_str (v : pyval) : result string :=
  match v with VStr s => Ok s | _ => Raise TypeError end.

(** [da.isel(indexers)] with a positional argument: xarray accepts only a
    dictionary there. *)
Definition isel_positional (da : DataArray) (indexers : pyval)
  : result DataArray :=
  Raise (ValueError "the first argument to .isel must be a dictionary").

Section Streams.
(** The nearest-node lookup of [thalassa/utils.py]. *)
Variable get_index_of_nearest_node : Dataset -> float -> float -> result Z.

(** The closure [callback] of [_get_stream_timeseries], with the
    variables it captures as leading arguments. *)
Definition callback (ds : Dataset) (variable : string)
  (source_raster : Raster) (x y : float) : result Curve :=
  inside <- is_point_in_the_mesh source_raster x y ;;
  if negb inside then
    let title := mkTitle variable x y in
    Ok (mkCurve NoData None (curve_opts title))
  else
    node_index <- get_index_of_nearest_node ds x y ;;
    ts <- ds_isel "node" node_index ds ;;
    ts_lon <- (a <- ds_getattr "lon" ts ;; item a.(da_values)) ;;
    ts_lat <- (a <- ds_getattr "lat" ts ;; item a.(da_values)) ;;
    let title := mkTitle variable ts_lon ts_lat in
    series <- ds_getitem variable ts ;;
    lo <- reduce_all nanmin series.(da_values) ;;
    hi <- reduce_all nanmax series.(da_values) ;;
    Ok (mkCurve (Series series) (Some (variable, (lo, hi))) (curve_opts title)).

Definition _get_stream_timeseries (ds : Dataset) (variable : string)
  (source_raster : Raster) (stream_class : stream_class) (layer : option Z)
  : result DynamicMap :=
  if negb (in_tap_pointer stream_class) then
    Raise (ValueError unsupported_stream)
  else
    ds <- match layer with
          | Some l => ds_isel "layer" l ds
          | None => Ok ds
          end ;;
    ds <- ds_getitems ["lon"; "lat"; variable]%string ds ;;
    let stream := mkStream stream_class 0 0 source_raster in
    Ok (mkDynamicMap (callback ds variable source_raster) [stream]).

Definition get_tap_timeseries (ds : Dataset) (variable : string)
  (source_raster : Raster) (layer : option Z) : result DynamicMap :=
  _get_stream_timeseries ds variable source_raster Tap layer.

Definition get_pointer_timeseries (ds : Dataset) (variable : string)
  (source_raster : Raster) (layer : option Z) : result DynamicMap :=
  _get_stream_timeseries ds variable source_raster PointerXY layer.

Definition extract_timeseries (ds : Dataset) (variable : string)
  (lon lat : float) : result DataArray :=
  index <- get_index_of_nearest_node ds lon lat ;;
  da <- ds_getitem variable ds ;;
  da_isel "node" index da.

(** [plot_timeseries(ts, lon, lat)].  Names are looked up as Python does:
    the function's own variables first, then the module's globals, then
    the builtins. *)
Definition plot_timeseries (ts : DataArray) (lon lat : float) : result Curve :=
  let scope := [("ts", VArray ts); ("lon", VFloat lon); ("lat", VFloat lat)]%string in
  _ <- load_name scope "get_index_of_nearest_node" ;;
  ds <- (v <- load_name scope "ds" ;; as_dataset v) ;;
  lon_arg <- (v <- load_name scope "lon" ;; as_float v) ;;
  lat_arg <- (v <- load_name scope "lat" ;; as_float v) ;;
  node_index <- get_index_of_nearest_node ds lon_arg lat_arg ;;
  let scope := ("node_index"%string, VInt node_index) :: scope in
  node_lon <- (v <- load_name scope "ds" ;; ds <- as_dataset v ;;
               a <- ds_getattr "lon" ds ;;
               i <- load_name scope "node_index" ;;
               isel_positional a i) ;;
  let scope := ("node_lon"%string, VArray node_lon) :: scope in
  node_lat <- (v <- load_name scope "ds" ;; ds <- as_dataset v ;;
               a <- ds_getattr "lat" ds ;;
               i <- load_name scope "node_index" ;;
               isel_positional a i) ;;
  let scope := ("node_lat"%string, VArray node_lat) :: scope in
  x <- (v <- load_name scope "x" ;; as_float v) ;;
  y <- (v <- load_name scope "y" ;; as_float v) ;;
  let title := mkPlotTitle x y node_lon node_lat in
  _ <- load_name scope "hv" ;;
  ts <- (v <- load_name scope "ts" ;; as_array v) ;;
  variable <- (v <- load_name scope "variable" ;; as_str v) ;;
  lo <- reduce_all nanmin ts.(da_values) ;;
  hi <- reduce_all nanmax ts.(da_values) ;;
  Ok (mkCurve (Series ts) (Some (variable, (lo, hi)))
              (mkOpts title true (1 # 10) true [])).
End Streams.

(** ** numpy: stacking with explicit shapes *)

Record array2 : Type := mkArray2 {
  a2_shape : nat * nat;
  a2_rows : list (list float)
}.

Record array3 : Type := mkArray3 {
  a3_shape : nat * nat * nat;
  a3_data : list (list (list float))
}.

(** [np.vstack] of one-dimensional arrays: one row per array. *)
Definition vstack (arrs : list (list float)) : result array2 :=
  match arrs with
  | [] => Raise (ValueError "need at least one array to concatenate")
  | a :: r =>
      if forallb (fun b => Nat.eqb (List.length b) (List.length a)) r
      then Ok (mkArray2 (List.length arrs, List.length a) arrs)
      else Raise (ValueError "all the input array dimensions must match exactly")
  end.

(** [a.T] *)
Definition transpose (a : array2) : array2 :=
  let '(r, c) := a.(a2_shape) in
  mkArray2 (c, r)
           (map (fun j => map (fun row => nth j row NaN) a.(a2_rows)) (seq 0 c)).

(** [a[:, lo:hi]], bounds clipped to the number of columns. *)
Definition slice_columns (lo hi : nat) (a : array2) : array2 :=
  let '(r, c) := a.(a2_shape) in
  let lo' := Nat.min lo c in
  let hi' := Nat.min hi c in
  mkArray2 (r, (hi' - lo')%nat)
           (map (fun row => firstn (hi' - lo')%nat (skipn lo' row)) a.(a2_rows)).

Definition shape2_eqb (s t : nat * nat) : bool :=
  Nat.eqb (fst s) (fst t) && Nat.eqb (snd s) (snd t).

(** [np.stack(arrs, axis=1)] of two-dimensional arrays of one shape. *)
Definition stack_axis1 (arrs : list array2) : result array3 :=
  match arrs with
  | [] => Raise (ValueError "need at least one array to stack")
  | a :: r =>
      if forallb (fun b => shape2_eqb b.(a2_shape) a.(a2_shape)) r
      then
        let '(n, c) := a.(a2_shape) in
        Ok (mkArray3 (n, List.length arrs, c)
                     (map (fun i => map (fun b => nth i b.(a2_rows) []) arrs)
                          (seq 0 n)))
      else Raise (ValueError "all input arrays must have the same shape")
  end.

(** [shape[1:] != (4, 2)] *)
Definition trailing_shape_differs (a : array3) : bool :=
  let '(_, k, c) := a.(a3_shape) in
  negb (Nat.eqb k 4 && Nat.eqb c 2).

(** ** [generate_mesh_polygon] *)

Definition point : Type := float * float.

(** The coordinate rings handed to [pygeos.polygons]: one ring per entry
    of the first axis, one point per entry of the second. *)
Definition rings_of (a : array3) : list (list point) :=
  map (map (fun pt => (nth 0 pt NaN, nth 1 pt NaN))) a.(a3_data).

(** [ds.node.values]: the node coordinate, or the positions themselves
    when the dimension has no coordinate. *)
Definition node_values (ds : Dataset) : result (list Z) :=
  match lookup "node" ds.(ds_coords) with
  | Some (IndexCoord labels) => Ok labels
  | Some (ScalarCoord _) => Raise IndexError
  | None =>
      n <- of_option (lookup "node" ds.(ds_dims)) (AttributeError "node") ;;
      Ok (map Z.of_nat (seq 0 n))
  end.

(** [ds.name.values] of a per-node variable, as a one-dimensional array. *)
Definition values_1d (name : string) (ds : Dataset) : result (list float) :=
  a <- ds_getattr name ds ;;
  floats_1d a.(da_values).

Definition triface_values (ds : Dataset) : result (list (Z * Z * Z)) :=
  of_option ds.(ds_triface_nodes) (AttributeError "triface_nodes").

Record GeoDataFrame (G : Type) : Type := mkGeoDataFrame {
  gdf_index : list Z;
  gdf_geometry : list G
}.

Definition something_went_wrong : string := "Something went wrong".

Section MeshPolygon.
(** The geometry libraries: pygeos geometries with their constructor
    from a coordinate ring, the coverage union and the WKT writer, WKT
    texts, and shapely geometries with the WKT reader. *)
Variables Geometry Wkt ShapelyGeometry : Type.
Variable polygon : list point -> Geometry.
Variable coverage_union_all : list Geometry -> Geometry.
Variable to_wkt : Geometry -> Wkt.
Variable wkt_loads : Wkt -> ShapelyGeometry.

(** The array [polygons_coords] built by the first half of the
    function. *)
Definition polygons_coords (ds : Dataset) : result array3 :=
  first_nodes <- (nodes <- node_values ds ;; tri <- triface_values ds ;;
                  take nodes (map (fun t => fst (fst t)) tri)) ;;
  second_nodes <- (nodes <- node_values ds ;; tri <- triface_values ds ;;
                   take nodes (map (fun t => snd (fst t)) tri)) ;;
  third_nodes <- (nodes <- node_values ds ;; tri <- triface_values ds ;;
                  take nodes (map (fun t => snd t) tri)) ;;
  first_lons <- (v <- values_1d "lon" ds ;; take v first_nodes) ;;
  first_lats <- (v <- values_1d "lat" ds ;; take v first_nodes) ;;
  second_lons <- (v <- values_1d "lon" ds ;; take v second_nodes) ;;
  second_lats <- (v <- values_1d "lat" ds ;; take v second_nodes) ;;
  third_lons <- (v <- values_1d "lon" ds ;; take v third_nodes) ;;
  third_lats <- (v <- values_1d "lat" ds ;; take v third_nodes) ;;
  stacked <- vstack [first_lons; first_lats; second_lons; second_lats;
                     third_lons; third_lats; first_lons; first_lats] ;;
  let polygons_per_line := transpose stacked in
  stack_axis1 [slice_columns 0 2 polygons_per_line;
               slice_columns 2 4 polygons_per_line;
               slice_columns 4 6 polygons_per_line;
               slice_columns 6 8 polygons_per_line].

Definition generate_mesh_polygon (ds : Dataset)
  : result (GeoDataFrame ShapelyGeometry) :=
  coords <- polygons_coords ds ;;
  if trailing_shape_differs coords then
    Raise (ValueError something_went_wrong)
  else
    let polygons := map polygon (rings_of coords) in
    let union := coverage_union_all polygons in
    let wkt := to_wkt union in
    Ok (mkGeoDataFrame [0%Z] [wkt_loads wkt]).
End MeshPolygon.

(** ** Sample data

    A mesh of four nodes and two triangles with two time steps, the same
    mesh with two vertical layers, and a 3 x 3 raster whose upper right
    pixel is not covered by the mesh. *)

Definition fl (z : Z) : nd := Sc (Num (inject_Z z)).

Definition row (zs : list Z) : nd := Ar (map fl zs).

Definition sample_ds : Dataset :=
  mkDataset
    [("time", 2%nat); ("node", 4%nat); ("triface", 2%nat); ("three", 3%nat)]%string
    [("time", IndexCoord [100; 200]%Z)]%string
    [("lon", mkDataArray ["node"] (row [0; 2; 0; 2]%Z));
     ("lat", mkDataArray ["node"] (row [0; 0; 2; 2]%Z));
     ("elev", mkDataArray ["time"; "node"]
                (Ar [row [1; 5; 3; 7]%Z; row [4; 2; 6; 0]%Z]))]%string
    (Some [(0, 1, 2); (1, 3, 2)]%Z).

Definition sample_layered_ds : Dataset :=
  mkDataset
    [("time", 2%nat); ("node", 4%nat); ("layer", 2%nat)]%string
    [("time", IndexCoord [100; 200]%Z)]%string
    [("lon", mkDataArray ["node"] (row [0; 2; 0; 2]%Z));
     ("lat", mkDataArray ["node"] (row [0; 0; 2; 2]%Z));
     ("salt", mkDataArray ["time"; "node"; "layer"]
                (Ar [Ar [row [1; 10]; row [5; 50]; row [3; 30]; row [7; 70]]%Z;
                     Ar [row [4; 40]; row [2; 20]; row [6; 60]; row [0; 0]]%Z]))]%string
    (Some [(0, 1, 2); (1, 3, 2)]%Z).

Definition sample_image : Image :=
  mkImage [0; 1; 2]%Q [0; 1; 2]%Q
    [("elev"%string,
      [[Num 1; Num 2; Num 3];
       [Num 4; Num 5; Num 6];
       [Num 7; Num 8; NaN]])].

Definition sample_raster : Raster :=
  mkRaster [sample_image] ["lon"; "lat"; "elev"]%string.

Definition no_parse (s : string) : option Z := None.

(** Geometries as terms, to run [generate_mesh_polygon] on the sample. *)
Inductive sym_geometry : Type :=
| SymPolygon (ring : list point)
| SymCoverageUnion (parts : list sym_geometry).

(** ** Specification predicates *)

(** [x] lies strictly below or strictly above every coordinate of an axis. *)
Definition outside (cs : list Q) (x : Q) : Prop :=
  (forall c, In c cs -> x < c) \/ (forall c, In c cs -> c < x).

(** The point is outside the coordinate range of the image along the
    longitude or along the latitude axis. *)
Definition outside_grid (img : Image) (lon lat : float) : Prop :=
  match lon, lat with
  | Num x, Num y => outside img.(img_lon) x \/ outside img.(img_lat) y
  | _, _ => False
  end.

(** The raster has been rendered: [img] is its first element and [data]
    the table of its data variable, the last of its deep dimensions. *)
Definition rendered (r : Raster) (img : Image) (data : list (list float)) : Prop :=
  exists name,
    hd_error r.(r_values) = Some img /\
    hd_error (rev r.(r_ddims)) = Some name /\
    lookup name img.(img_data) = Some data.

(** The exceptions the array library raises in the dataset operations of
    [_get_stream_timeseries]. *)
Definition xarray_error (e : exn) : Prop :=
  e = IndexError \/ e = ValueError "Dimensions do not exist" \/
  exists k, e = KeyError k.

Definition result_map {A B : Type} (f : A -> B) (m : result A) : result B :=
  match m with
  | Ok a => Ok (f a)
  | Raise e => Raise e
  end.

(** What is left of a dynamic map when the class of its streams is
    forgotten: the callback and, per stream, the initial position and the
    source. *)
Definition without_stream_class (dm : DynamicMap)
  : (float -> float -> result Curve) * list (Z * Z * Raster) :=
  (dm.(dm_callback),
   map (fun s => (s.(st_x), s.(st_y), s.(st_source))) dm.(dm_streams)).


(** The curve without data that the callback shows for a point outside
    the mesh, titled with the position of the pointer. *)
Definition empty_curve (variable : string) (x y : float) : Curve :=
  mkCurve NoData None (curve_opts (mkTitle variable x y)).


(** The names that are local to [plot_timeseries]: its parameters and the
    targets of its assignments. *)
Definition plot_timeseries_locals : list string :=
  ["ts"; "lon"; "lat"; "node_index"; "node_lon"; "node_lat"; "title"; "plot"]%string.

(** The coordinates of the node that entry [k] of the connectivity table
    designates: [k] is looked up in the node coordinate, and the label
    found there in [lon] and [lat]. *)
Definition node_point (nodes : list Z) (lons lats : list float) (k : Z)
  : result point :=
  p <- getitem nodes k ;;
  x <- getitem lons p ;;
  y <- getitem lats p ;;
  Ok (x, y).

(** The coordinate ring of a triangle: its three nodes, then the first
    node again as closing point. *)
Definition triangle_ring (nodes : list Z) (lons lats : list float)
  (t : Z * Z * Z) : result (list point) :=
  let '(a, b, c) := t in
  pa <- node_point nodes lons lats a ;;
  pb <- node_point nodes lons lats b ;;
  pc <- node_point nodes lons lats c ;;
  Ok [pa; pb; pc; pa].

Definition get_or {A : Type} (d : A) (m : result A) : A :=
  match m with
  | Ok a => a
  | Raise _ => d
  end.

Section PointTable.
Variable parse_datetime : string -> option Z.


End PointTable.

(** A one-dimensional array of floats, and the table of a variable over
    (time, node). *)
Definition row_of (l : list float) : nd := Ar (map Sc l).

Definition map2 (f : float -> float -> float) (l m : list float) : list float :=
  map (fun p => f (fst p) (snd p)) (combine l m).

(** The label, longitude and latitude that the lookups of [node_point]
    find for entry [k], with a default where a lookup fails. *)
Definition node_label (nodes : list Z) (k : Z) : Z :=
  get_or 0%Z (getitem nodes k).

Definition node_lon (nodes : list Z) (lons : list float) (k : Z) : float :=
  get_or NaN (getitem lons (node_label nodes k)).

Definition node_lat (nodes : list Z) (lats : list float) (k : Z) : float :=
  get_or NaN (getitem lats (node_label nodes k)).

(** The entries of node [i] in the rows of a table over (time, node). *)
Definition column (i : nat) (rows : list (list float)) : list float :=
  map (fun r => nth i r NaN) rows.

(** The table of a variable over (time, node), one row per time step. *)
Definition time_node_array (rows : list (list float)) : DataArray :=
  mkDataArray ["time"; "node"]%string (Ar (map row_of rows)).

(** A variable over [node] alone. *)
Definition node_array (vs : list float) : DataArray :=
  mkDataArray ["node"%string] (row_of vs).

(** What reducing along [time] with [f] leaves of a variable over
    (time, node): per node, the fold of [f] over the entries of the node. *)
Definition reduced_per_node (f : float -> float -> float)
  (r0 : list float) (rows : list (list float)) (out : list float) : Prop :=
  List.length out = List.length r0 /\
  forall i, (i < List.length r0)%nat ->
            nth i out NaN = fold_left f (column i rows) (nth i r0 NaN).

(** ** Further specification predicates *)

(** Every pixel of the image holds a number, and the table has one row
    per latitude and one column per longitude. *)
Definition grid_covered (img : Image) (data : list (list float)) : Prop :=
  List.length data = List.length img.(img_lat) /\
  Forall (fun row => List.length row = List.length img.(img_lon) /\
                     Forall (fun v => isnan v = false) row) data.

(** [x] lies between the first and the last coordinate of an axis that
    has at least two of them. *)
Definition in_axis_range (cs : list Q) (x : Q) : Prop :=
  (2 <= List.length cs)%nat /\ between (hd 0 cs) (last cs 0) x = true.

(** A raster like the sample whose pixels all hold a number. *)
Definition sample_full_image : Image :=
  mkImage [0; 1; 2]%Q [0; 1; 2]%Q
    [("elev"%string,
      [[Num 1; Num 2; Num 3];
       [Num 4; Num 5; Num 6];
       [Num 7; Num 8; Num 9]])].

Definition sample_full_raster : Raster :=
  mkRaster [sample_full_image] ["lon"; "lat"; "elev"]%string.


(** A mesh dataset in its plain form: the dimensions (time, node), the
    index of [time], [lon] and [lat] per node and one variable over
    (time, node), one row per time step. *)
Definition mesh_dataset (variable : string) (labels : list Z)
  (lons lats : list float) (rows : list (list float))
  (tri : option (list (Z * Z * Z))) : Dataset :=
  mkDataset
    [("time"%string, List.length rows); ("node"%string, List.length lons)]
    [("time"%string, IndexCoord labels)]
    [("lon"%string, node_array lons); ("lat"%string, node_array lats);
     (variable, time_node_array rows)]
    tri.

(** The point table with one row per node: longitude, latitude, value. *)
Definition node_table (variable : string) (lons lats values : list float)
  : DataFrame :=
  mkDataFrame []
    ["lon"%string; "lat"%string; variable]
    (map (fun i => [CFloat (nth i lons NaN); CFloat (nth i lats NaN);
                    CFloat (nth i values NaN)])
         (seq 0 (List.length lons))).

(** The mesh over a point table. *)
Definition mesh_over (variable : string) (simplices : list (Z * Z * Z))
  (table : DataFrame) : TriMesh :=
  mkTriMesh simplices (mkPoints table ["lon"; "lat"]%string [variable]).


(** A dataset with a variable that does not vary in time. *)
Definition sample_static_ds : Dataset :=
  mkDataset
    [("time", 2%nat); ("node", 4%nat)]%string
    [("time", IndexCoord [100; 200]%Z)]%string
    [("lon", mkDataArray ["node"] (row [0; 2; 0; 2]%Z));
     ("lat", mkDataArray ["node"] (row [0; 0; 2; 2]%Z));
     ("depth", mkDataArray ["node"] (row [9; 8; 7; 6]%Z))]%string
    (Some [(0, 1, 2); (1, 3, 2)]%Z).





(** The sample mesh with a triangle that names a node that does not
    exist. *)
Definition sample_broken_ds : Dataset :=
  mkDataset
    [("time", 2%nat); ("node", 4%nat); ("triface", 2%nat); ("three", 3%nat)]%string
    [("time", IndexCoord [100; 200]%Z)]%string
    [("lon", mkDataArray ["node"] (row [0; 2; 0; 2]%Z));
     ("lat", mkDataArray ["node"] (row [0; 0; 2; 2]%Z));
     ("elev", mkDataArray ["time"; "node"]
                (Ar [row [1; 5; 3; 7]%Z; row [4; 2; 6; 0]%Z]))]%string
    (Some [(0, 1, 2); (1, 4, 2)]%Z).



(** * Properties *)

(** ** The error monad *)

Lemma bind_Ok (A B : Type) (m : result A) (k : A -> result B) (b : B) :
  bind m k = Ok b -> exists a, m = Ok a /\ k a = Ok b.
Proof.
  destruct m as [a|e]; simpl; intro H.
  - exists a; split; [reflexivity | exact H].
  - discriminate H.
Qed.

Lemma bind_Raise (A B : Type) (m : result A) (k : A -> result B) (e : exn) :
  bind m k = Raise e ->
  m = Raise e \/ exists a, m = Ok a /\ k a = Raise e.
Proof.
  destruct m as [a|e']; simpl; intro H.
  - right; exists a; split; [reflexivity | exact H].
  - left; congruence.
Qed.

Lemma mapM_Ok_map (A B : Type) (f : A -> result B) (g : A -> B) (l : list A) :
  (forall x, In x l -> f x = Ok (g x)) -> mapM f l = Ok (map g l).
Proof.
  induction l as [|x r IH]; intro H; simpl.
  - reflexivity.
  - rewrite (H x (or_introl eq_refl)); simpl.
    rewrite IH; [reflexivity | intros y Hy; apply H; right; exact Hy].
Qed.

Lemma mapM_Raise (A B : Type) (f : A -> result B) (l : list A) (e : exn) :
  mapM f l = Raise e -> exists x, In x l /\ f x = Raise e.
Proof.
  induction l as [|x r IH]; simpl; intro H.
  - discriminate H.
  - destruct (f x) as [y|e'] eqn:Hx; simpl in H.
    + destruct (mapM f r) as [ys|e''] eqn:Hr; simpl in H; [discriminate H|].
      destruct (IH H) as [z [Hz Hfz]]. exists z; split; [right; exact Hz | exact Hfz].
    + exists x; split; [left; reflexivity | congruence].
Qed.

Lemma mapM_Ok_length (A B : Type) (f : A -> result B) (l : list A) (ys : list B) :
  mapM f l = Ok ys -> List.length ys = List.length l.
Proof.
  revert ys; induction l as [|x r IH]; simpl; intros ys H.
  - inversion H; reflexivity.
  - destruct (f x) as [y|e]; simpl in H; [|discriminate H].
    destruct (mapM f r) as [zs|e]; simpl in H; [|discriminate H].
    inversion H; subst; simpl. f_equal. apply IH; reflexivity.
Qed.

Lemma mapM_Ok_nth (A B : Type) (f : A -> result B) (l : list A) (ys : list B) :
  mapM f l = Ok ys ->
  forall t, match nth_error l t with
            | Some x => exists y, nth_error ys t = Some y /\ f x = Ok y
            | None => nth_error ys t = None
            end.
Proof.
  revert ys; induction l as [|x r IH]; simpl; intros ys H t.
  - inversion H; subst. destruct t; reflexivity.
  - destruct (f x) as [y|e] eqn:Hx; simpl in H; [|discriminate H].
    destruct (mapM f r) as [zs|e]; simpl in H; [|discriminate H].
    inversion H; subst. destruct t as [|t]; simpl.
    + exists y; split; [reflexivity | exact Hx].
    + apply IH; reflexivity.
Qed.

(** ** Interpolation outside the grid *)

Lemma between_outside (x0 x1 x : Q) :
  (x < x0 /\ x < x1) \/ (x0 < x /\ x1 < x) -> between x0 x1 x = false.
Proof.
  unfold between. intros [[H0 H1]|[H0 H1]].
  - assert (Qle_bool x0 x = false) as ->.
    { destruct (Qle_bool x0 x) eqn:E; [|reflexivity].
      apply Qle_bool_iff in E. exfalso. apply (Qlt_not_le _ _ H0 E). }
    assert (Qle_bool x1 x = false) as ->.
    { destruct (Qle_bool x1 x) eqn:E; [|reflexivity].
      apply Qle_bool_iff in E. exfalso. apply (Qlt_not_le _ _ H1 E). }
    reflexivity.
  - assert (Qle_bool x x1 = false) as ->.
    { destruct (Qle_bool x x1) eqn:E; [|reflexivity].
      apply Qle_bool_iff in E. exfalso. apply (Qlt_not_le _ _ H1 E). }
    assert (Qle_bool x x0 = false) as ->.
    { destruct (Qle_bool x x0) eqn:E; [|reflexivity].
      apply Qle_bool_iff in E. exfalso. apply (Qlt_not_le _ _ H0 E). }
    rewrite !andb_false_r. reflexivity.
Qed.

Lemma outside_tail (c : Q) (cs : list Q) (x : Q) :
  outside (c :: cs) x -> outside cs x.
Proof.
  intros [H|H]; [left|right]; intros d Hd; apply H; right; exact Hd.
Qed.

Lemma interp1d_step (x0 x1 : Q) (xs : list Q) (v0 v1 : float)
  (vs : list float) (x : Q) :
  interp1d (x0 :: x1 :: xs) (v0 :: v1 :: vs) x =
  if between x0 x1 x then lerp x0 x1 v0 v1 x
  else interp1d (x1 :: xs) (v1 :: vs) x.
Proof. reflexivity. Qed.

Lemma interp1d_outside (xs : list Q) (x : Q) :
  outside xs x -> forall vs, interp1d xs vs x = NaN.
Proof.
  induction xs as [|x0 xs IH]; intros Hout vs.
  - reflexivity.
  - destruct xs as [|x1 xs'].
    + reflexivity.
    + destruct vs as [|v0 [|v1 vs']]; try reflexivity.
      rewrite interp1d_step, between_outside.
      * apply IH. apply (outside_tail Hout).
      * destruct Hout as [H|H]; [left|right];
          (split; apply H; [left; reflexivity | right; left; reflexivity]).
Qed.

Lemma interp1d_all_nan (xs : list Q) (x : Q) (vs : list float) :
  Forall (fun v => v = NaN) vs -> interp1d xs vs x = NaN.
Proof.
  revert vs; induction xs as [|x0 xs IH]; intros vs Hall.
  - reflexivity.
  - destruct xs as [|x1 xs'].
    + reflexivity.
    + destruct vs as [|v0 [|v1 vs']]; try reflexivity.
      rewrite interp1d_step.
      inversion Hall as [|? ? Hv0 Hrest]; subst.
      destruct (between x0 x1 x).
      * reflexivity.
      * apply IH. exact Hrest.
Qed.

Lemma interp_outside (img : Image) (data : list (list float)) (lon lat : float) :
  outside_grid img lon lat -> interp img data lon lat = NaN.
Proof.
  unfold outside_grid, interp.
  destruct lon as [|x]; [intros []|].
  destruct lat as [|y]; [intros []|].
  intros [Hlon|Hlat].
  - apply interp1d_all_nan. apply Forall_forall. intros v Hv.
    apply in_map_iff in Hv. destruct Hv as [r [Hr _]]. subst v.
    apply interp1d_outside. exact Hlon.
  - apply interp1d_outside. exact Hlat.
Qed.

(** C2.  On a rendered raster [is_point_in_the_mesh] returns a boolean that
    is [true] exactly when interpolating the raster's data variable at
    (lon, lat) gives a value that is not NaN, and it returns [false] for
    every point outside the coordinate range of the raster. *)
Theorem is_point_in_the_mesh_iff_not_nan
  (r : Raster) (img : Image) (data : list (list float)) (lon lat : float) :
  rendered r img data ->
  exists b,
    is_point_in_the_mesh r lon lat = Ok b /\
    (b = true <-> isnan (interp img data lon lat) = false) /\
    (outside_grid img lon lat -> b = false).
Proof.
  intros [name [Hv [Hd Hl]]].
  exists (negb (isnan (interp img data lon lat))).
  split; [|split].
  - unfold is_point_in_the_mesh. rewrite Hv, Hd; simpl. rewrite Hl; simpl.
    reflexivity.
  - destruct (isnan (interp img data lon lat)); simpl; split; congruence.
  - intro Hout. rewrite (@interp_outside img data lon lat Hout). reflexivity.
Qed.

Lemma is_point_in_the_mesh_iff_not_nan_witness :
  exists b,
    is_point_in_the_mesh sample_raster (Num 3) (Num (1 # 2)) = Ok b /\
    (b = true <->
     isnan (interp sample_image
              [[Num 1; Num 2; Num 3]; [Num 4; Num 5; Num 6]; [Num 7; Num 8; NaN]]
              (Num 3) (Num (1 # 2))) = false) /\
    (outside_grid sample_image (Num 3) (Num (1 # 2)) -> b = false).
Proof.
  apply (@is_point_in_the_mesh_iff_not_nan sample_raster sample_image).
  exists "elev"%string. repeat split.
Defined.

(** ** Exceptions of the dataset operations *)

Lemma nd_induction (P : nd -> Prop) :
  (forall v, P (Sc v)) ->
  (forall xs, Forall P xs -> P (Ar xs)) ->
  forall a, P a.
Proof.
  intros Hs Ha.
  fix IH 1.
  intros [v|xs].
  - apply Hs.
  - apply Ha. induction xs as [|x r IHr]; constructor.
    + apply IH.
    + exact IHr.
Qed.

Lemma normalize_index_Raise (n : nat) (i : Z) (e : exn) :
  normalize_index n i = Raise e -> e = IndexError.
Proof.
  unfold normalize_index.
  destruct (_ && _)%bool; intro H; [discriminate H | congruence].
Qed.

Lemma of_option_Raise (A : Type) (o : option A) (e e' : exn) :
  of_option o e = Raise e' -> e' = e.
Proof. destruct o; simpl; intro H; [discriminate H | congruence]. Qed.

Lemma getitem_Raise (A : Type) (l : list A) (i : Z) (e : exn) :
  getitem l i = Raise e -> e = IndexError.
Proof.
  unfold getitem. intro H. apply bind_Raise in H.
  destruct H as [H|[j [_ H]]].
  - apply normalize_index_Raise in H; exact H.
  - apply of_option_Raise in H; exact H.
Qed.

Lemma isel_axis_Raise (a : nd) :
  forall k i e, isel_axis k i a = Raise e -> e = IndexError.
Proof.
  induction a as [v|xs IH] using nd_induction; intros k i e H.
  - simpl in H. congruence.
  - destruct k as [|k']; simpl in H.
    + apply of_option_Raise in H; exact H.
    + apply bind_Raise in H. destruct H as [H|[ys [_ H]]]; [|discriminate H].
      apply mapM_Raise in H. destruct H as [x [Hin Hx]].
      rewrite Forall_forall in IH. apply (IH x Hin k' i e Hx).
Qed.

Lemma da_isel_Raise (d : string) (i : Z) (da : DataArray) (e : exn) :
  da_isel d i da = Raise e -> xarray_error e.
Proof.
  unfold da_isel. destruct (index_of d (da_dims da)) as [k|]; intro H.
  - left. apply bind_Raise in H. destruct H as [H|[j [_ H]]].
    + apply normalize_index_Raise in H; exact H.
    + apply bind_Raise in H. destruct H as [H|[v [_ H]]]; [|discriminate H].
      apply isel_axis_Raise in H; exact H.
  - right; left. congruence.
Qed.

Lemma ds_isel_Raise (d : string) (i : Z) (ds : Dataset) (e : exn) :
  ds_isel d i ds = Raise e -> xarray_error e.
Proof.
  unfold ds_isel. intro H.
  apply bind_Raise in H. destruct H as [H|[n [_ H]]].
  { right; left. unfold dim_size in H. apply of_option_Raise in H; exact H. }
  apply bind_Raise in H. destruct H as [H|[j [_ H]]].
  { left. apply normalize_index_Raise in H; exact H. }
  apply bind_Raise in H. destruct H as [H|[vars [_ H]]].
  { apply mapM_Raise in H. destruct H as [[name da] [_ H]].
    unfold on_snd in H; simpl in H.
    apply bind_Raise in H. destruct H as [H|[b [_ H]]]; [|discriminate H].
    unfold var_isel in H. destruct (mem d (da_dims da)); [|discriminate H].
    apply da_isel_Raise in H; exact H. }
  apply bind_Raise in H. destruct H as [H|[coords [_ H]]]; [|discriminate H].
  apply mapM_Raise in H. destruct H as [[name c] [_ H]].
  left. unfold coord_isel in H. destruct c as [labels|label]; [|discriminate H].
  destruct (String.eqb name d); [|discriminate H].
  apply bind_Raise in H. destruct H as [H|[l [_ H]]]; [|discriminate H].
  apply getitem_Raise in H; exact H.
Qed.

Lemma ds_getitems_Raise (columns : list string) (ds : Dataset) (e : exn) :
  ds_getitems columns ds = Raise e -> xarray_error e.
Proof.
  unfold ds_getitems. intro H.
  apply bind_Raise in H. destruct H as [H|[vars [_ H]]]; [|discriminate H].
  apply mapM_Raise in H. destruct H as [c [_ H]].
  apply bind_Raise in H. destruct H as [H|[da [_ H]]]; [|discriminate H].
  right; right. exists c. unfold ds_getitem in H. apply of_option_Raise in H; exact H.
Qed.

Lemma xarray_error_not_unsupported (e : exn) :
  xarray_error e -> e <> ValueError unsupported_stream.
Proof.
  intros [H|[H|[k H]]]; subst e; discriminate.
Qed.

(** ** The stream pipeline *)

Section StreamProperties.
Variable get_index_of_nearest_node : Dataset -> float -> float -> result Z.

Lemma supported_stream_no_unsupported_error
  (ds : Dataset) (variable : string) (r : Raster) (c : stream_class)
  (layer : option Z) :
  in_tap_pointer c = true ->
  _get_stream_timeseries get_index_of_nearest_node ds variable r c layer
  <> Raise (ValueError unsupported_stream).
Proof.
  intros Hc H. unfold _get_stream_timeseries in H.
  rewrite Hc in H; simpl in H.
  apply bind_Raise in H. destruct H as [H|[ds1 [_ H]]].
  - destruct layer as [l|]; [|discriminate H].
    apply ds_isel_Raise, xarray_error_not_unsupported in H. apply H; reflexivity.
  - apply bind_Raise in H. destruct H as [H|[ds2 [_ H]]]; [|discriminate H].
    apply ds_getitems_Raise, xarray_error_not_unsupported in H. apply H; reflexivity.
Qed.

(** C5.  [_get_stream_timeseries] raises the "Unsupported Stream class"
    [ValueError] exactly when the stream class is neither [Tap] nor
    [PointerXY]; for such a class it raises it whatever the dataset, the
    variable, the raster and the layer are, so before any operation on the
    dataset (which is never modified: the operations return new datasets);
    and [get_tap_timeseries] and [get_pointer_timeseries] never raise it. *)
Theorem unsupported_stream_class_error
  (ds : Dataset) (variable : string) (r : Raster) (c : stream_class)
  (layer : option Z) :
  let unsupported := Raise (ValueError unsupported_stream) in
  (_get_stream_timeseries get_index_of_nearest_node ds variable r c layer
   = unsupported
   <-> (c <> Tap /\ c <> PointerXY)) /\
  ((c <> Tap /\ c <> PointerXY) ->
   forall ds' variable' r' layer',
     _get_stream_timeseries get_index_of_nearest_node ds' variable' r' c layer'
     = unsupported) /\
  get_tap_timeseries get_index_of_nearest_node ds variable r layer
  <> unsupported /\
  get_pointer_timeseries get_index_of_nearest_node ds variable r layer
  <> unsupported.
Proof.
  intro unsupported. subst unsupported.
  assert (Hother : (c <> Tap /\ c <> PointerXY) ->
                   forall ds' variable' r' layer',
                     _get_stream_timeseries get_index_of_nearest_node
                       ds' variable' r' c layer'
                     = Raise (ValueError unsupported_stream)).
  { intros [Ht Hp] ds' variable' r' layer'.
    destruct c as [| |name]; [contradiction Ht | contradiction Hp |]; reflexivity. }
  split; [split|split; [exact Hother|split]].
  - intro H. destruct c as [| |name].
    + exfalso. revert H. apply supported_stream_no_unsupported_error. reflexivity.
    + exfalso. revert H. apply supported_stream_no_unsupported_error. reflexivity.
    + split; discriminate.
  - intro Hc. apply Hother. exact Hc.
  - apply supported_stream_no_unsupported_error. reflexivity.
  - apply supported_stream_no_unsupported_error. reflexivity.
Qed.

(** The check on the stream class comes first: with a layer that the
    dataset does not have, a supported class gets the error of the layer
    selection and an unsupported one the error of the check. *)
Example stream_class_checked_before_layer :
  _get_stream_timeseries get_index_of_nearest_node
    sample_ds "elev" sample_raster Tap (Some 0%Z)
  = Raise (ValueError "Dimensions do not exist") /\
  _get_stream_timeseries get_index_of_nearest_node
    sample_ds "elev" sample_raster (OtherStream "RangeXY") (Some 0%Z)
  = Raise (ValueError unsupported_stream).
Proof. split; reflexivity. Qed.

(** C7.  [get_tap_timeseries] and [get_pointer_timeseries] are
    [_get_stream_timeseries] at the classes [Tap] and [PointerXY]; they
    fail alike, and when they succeed their dynamic maps have the same
    callback and the same stream position and source, and differ in the
    class of the stream only. *)
Theorem tap_and_pointer_share_pipeline
  (ds : Dataset) (variable : string) (r : Raster) (layer : option Z) :
  let tap := get_tap_timeseries get_index_of_nearest_node ds variable r layer in
  let pointer :=
    get_pointer_timeseries get_index_of_nearest_node ds variable r layer in
  tap = _get_stream_timeseries get_index_of_nearest_node ds variable r Tap layer /\
  pointer
  = _get_stream_timeseries get_index_of_nearest_node ds variable r PointerXY layer /\
  result_map without_stream_class tap = result_map without_stream_class pointer /\
  result_map (fun dm => map st_class dm.(dm_streams)) tap
  = result_map (fun _ => [Tap]) tap /\
  result_map (fun dm => map st_class dm.(dm_streams)) pointer
  = result_map (fun _ => [PointerXY]) pointer.
Proof.
  intros tap pointer. subst tap pointer.
  unfold get_tap_timeseries, get_pointer_timeseries, _get_stream_timeseries.
  simpl.
  destruct (match layer with
            | Some l => ds_isel "layer" l ds
            | None => Ok ds
            end) as [ds1|e]; simpl.
  - destruct (ds_getitems ["lon"%string; "lat"%string; variable] ds1) as [ds2|e];
      simpl; repeat split; reflexivity.
  - repeat split; reflexivity.
Qed.


Lemma isel_axis_inner (k j : nat) (xs : list nd) (v : nd) :
  isel_axis (S k) j (Ar xs) = Ok v ->
  exists ys, v = Ar ys /\ mapM (isel_axis k j) xs = Ok ys.
Proof.
  simpl. intro H. apply bind_Ok in H. destruct H as [ys [Hys H]].
  exists ys. split; [congruence | exact Hys].
Qed.

Lemma nd_at_isel_column (rows ys : list nd) (j : nat) :
  mapM (isel_axis 0 j) rows = Ok ys ->
  forall t, nd_at [t] (Ar ys) = nd_at [t; j] (Ar rows).
Proof.
  intros H t. pose proof (mapM_Ok_nth _ _ H t) as Ht.
  cbn [nd_at]. destruct (nth_error rows t) as [x|].
  - destruct Ht as [y [Hy Hx]]. rewrite Hy. simpl.
    destruct x as [v|zs]; simpl in Hx; [discriminate Hx|].
    destruct (nth_error zs j) as [z|]; simpl in Hx; [|discriminate Hx].
    inversion Hx; subst. reflexivity.
  - rewrite Ht. reflexivity.
Qed.

(** C3.  [extract_timeseries] returns [ds[variable]] selected along [node]
    at the index that [get_index_of_nearest_node] computes for (lon, lat);
    for a variable over (time, node) this is the whole series of the node:
    one entry per time step, the entry at step [t] being the entry of the
    variable at step [t] and that node. *)
Theorem extract_timeseries_selects_nearest_node
  (ds : Dataset) (variable : string) (lon lat : float) (index : Z)
  (da : DataArray) :
  get_index_of_nearest_node ds lon lat = Ok index ->
  ds_getitem variable ds = Ok da ->
  extract_timeseries get_index_of_nearest_node ds variable lon lat
  = da_isel "node" index da /\
  forall rows series,
    da = mkDataArray ["time"; "node"]%string (Ar rows) ->
    da_isel "node" index da = Ok series ->
    exists j,
      normalize_index (axis_len 1 (Ar rows)) index = Ok j /\
      series.(da_dims) = ["time"%string] /\
      axis_len 0 series.(da_values) = List.length rows /\
      forall t, nd_at [t] series.(da_values) = nd_at [t; j] (Ar rows).
Proof.
  intros Hi Hda. split.
  - unfold extract_timeseries. rewrite Hi; simpl. rewrite Hda; simpl. reflexivity.
  - intros rows series -> Hsel. unfold da_isel in Hsel. cbn [da_dims da_values] in Hsel.
    change (index_of "node" ["time"%string; "node"%string]) with (Some 1%nat) in Hsel.
    apply bind_Ok in Hsel. destruct Hsel as [j [Hj Hsel]].
    apply bind_Ok in Hsel. destruct Hsel as [v [Hv Hsel]].
    inversion Hsel; subst series; clear Hsel.
    apply isel_axis_inner in Hv. destruct Hv as [ys [-> Hys]].
    exists j. split; [exact Hj|]. split; [reflexivity|]. split.
    + simpl. apply (mapM_Ok_length _ _ Hys).
    + apply nd_at_isel_column. exact Hys.
Qed.

(** C8.  [extract_timeseries] does not test containment: at a point that
    is not in the mesh of a raster, where the stream callback returns the
    curve without data, it still returns the series of the node that the
    nearest-node lookup gives, the same as at any other point with that
    nearest node. *)
Theorem extract_timeseries_has_no_mesh_check
  (ds : Dataset) (variable : string) (r : Raster) (lon lat : float)
  (i : Z) (da series : DataArray) :
  is_point_in_the_mesh r lon lat = Ok false ->
  get_index_of_nearest_node ds lon lat = Ok i ->
  ds_getitem variable ds = Ok da ->
  da_isel "node" i da = Ok series ->
  extract_timeseries get_index_of_nearest_node ds variable lon lat = Ok series /\
  callback get_index_of_nearest_node ds variable r lon lat
  = Ok (empty_curve variable lon lat) /\
  forall lon' lat',
    get_index_of_nearest_node ds lon' lat' = Ok i ->
    extract_timeseries get_index_of_nearest_node ds variable lon' lat' = Ok series.
Proof.
  intros Hout Hi Hda Hsel. split; [|split].
  - unfold extract_timeseries. rewrite Hi; simpl. rewrite Hda; simpl. exact Hsel.
  - unfold callback. rewrite Hout. reflexivity.
  - intros lon' lat' Hi'. unfold extract_timeseries.
    rewrite Hi'; simpl. rewrite Hda; simpl. exact Hsel.
Qed.

(** ** [plot_timeseries] *)

Lemma lookup_not_in (A : Type) (k : string) (l : list (string * A)) :
  ~ In k (map fst l) -> lookup k l = None.
Proof.
  induction l as [|[k' v] r IH]; simpl; intro H.
  - reflexivity.
  - destruct (String.eqb k k') eqn:E.
    + apply String.eqb_eq in E. exfalso. apply H. left. congruence.
    + apply IH. intro Hin. apply H. right. exact Hin.
Qed.

(** C10.  [plot_timeseries] raises [NameError] for every argument: the
    first name it loads after its callee is [ds], and none of [ds], [x],
    [y] and [variable] is a variable of the function, a global of the
    module or a builtin, so loading any of them raises [NameError] whatever
    the function's variables hold. *)
Theorem plot_timeseries_raises_name_error
  (ts : DataArray) (lon lat : float) :
  plot_timeseries get_index_of_nearest_node ts lon lat = Raise (NameError "ds") /\
  forall (scope : list (string * pyval)) (name : string),
    incl (map fst scope) plot_timeseries_locals ->
    In name ["ds"; "x"; "y"; "variable"]%string ->
    load_name scope name = Raise (NameError name).
Proof.
  split.
  - reflexivity.
  - intros scope name Hscope Hname. unfold load_name.
    rewrite lookup_not_in.
    + simpl in Hname.
      destruct Hname as [<-|[<-|[<-|[<-|[]]]]]; reflexivity.
    + intro Hin. apply Hscope in Hin. simpl in Hname, Hin.
      destruct Hname as [<-|[<-|[<-|[<-|[]]]]];
        repeat (destruct Hin as [Hin|Hin]; [discriminate Hin|]); exact Hin.
Qed.

End StreamProperties.

(** ** The mesh polygon *)



Lemma nth_map_in_range (A B : Type) (f : A -> B) (l : list A) (j : nat)
  (d : A) (e : B) :
  (j < List.length l)%nat -> nth j (map f l) e = f (nth j l d).
Proof.
  intro H. rewrite (nth_indep (map f l) e (f d)).
  - apply map_nth.
  - rewrite length_map. exact H.
Qed.

Lemma take_Raise (A : Type) (a : list A) (idx : list Z) (e : exn) :
  take a idx = Raise e -> e = IndexError.
Proof.
  unfold take. intro H. apply mapM_Raise in H. destruct H as [x [_ H]].
  apply getitem_Raise in H; exact H.
Qed.













Section MeshPolygonProperties.
Variables Geometry Wkt ShapelyGeometry : Type.
Variable polygon : list point -> Geometry.
Variable coverage_union_all : list Geometry -> Geometry.
Variable to_wkt : Geometry -> Wkt.
Variable wkt_loads : Wkt -> ShapelyGeometry.





End MeshPolygonProperties.

(** ** The point table of [create_trimesh] *)



Lemma nd_zip_rows (f : float -> float -> float) (a b : list float) :
  List.length a = List.length b ->
  nd_zip f (row_of a) (row_of b) = Ok (row_of (map2 f a b)).
Proof.
  revert b. induction a as [|x a IH]; intros [|y b] Hlen; try discriminate Hlen.
  - reflexivity.
  - injection Hlen as Hlen. specialize (IH b Hlen).
    unfold row_of in *. cbn [map nd_zip bind] in *.
    apply bind_Ok in IH. destruct IH as [zs [Hzs Hr]].
    rewrite Hzs. cbn [bind]. inversion Hr. reflexivity.
Qed.

Lemma length_map2 (f : float -> float -> float) (a b : list float) :
  List.length a = List.length b -> List.length (map2 f a b) = List.length a.
Proof.
  intro H. unfold map2. rewrite length_map, length_combine, <- H.
  apply Nat.min_id.
Qed.

Lemma reduce_axis_time (f : float -> float -> float) (r0 : list float)
  (rows : list (list float)) :
  Forall (fun r => List.length r = List.length r0) rows ->
  reduce_axis f 0 (Ar (map row_of (r0 :: rows)))
  = Ok (row_of (fold_left (map2 f) rows r0)).
Proof.
  cbn [map reduce_axis]. revert r0.
  induction rows as [|r rows IH]; intros r0 Hall.
  - reflexivity.
  - inversion Hall as [|? ? Hr Hrest]; subst.
    cbn [map foldM fold_left].
    rewrite nd_zip_rows by (symmetry; exact Hr). cbn [bind].
    apply IH. apply Forall_forall. intros r' Hr'.
    rewrite Forall_forall in Hrest. rewrite (Hrest r' Hr').
    symmetry. apply length_map2. symmetry; exact Hr.
Qed.

Lemma nth_map2 (f : float -> float -> float) (a b : list float) (i : nat) :
  List.length a = List.length b -> (i < List.length a)%nat ->
  nth i (map2 f a b) NaN = f (nth i a NaN) (nth i b NaN).
Proof.
  intros Hlen Hi. unfold map2.
  rewrite (nth_map_in_range (fun p => f (fst p) (snd p)) (combine a b) (NaN, NaN) NaN).
  - rewrite combine_nth by exact Hlen. reflexivity.
  - rewrite length_combine, <- Hlen, Nat.min_id. exact Hi.
Qed.

Lemma nth_fold_map2 (f : float -> float -> float) (rows : list (list float)) :
  forall (r0 : list float) (i : nat),
    Forall (fun r => List.length r = List.length r0) rows ->
    (i < List.length r0)%nat ->
    nth i (fold_left (map2 f) rows r0) NaN
    = fold_left f (column i rows) (nth i r0 NaN).
Proof.
  induction rows as [|r rows IH]; intros r0 i Hall Hi.
  - reflexivity.
  - inversion Hall as [|? ? Hr Hrest]; subst.
    cbn [fold_left column map]. fold (column i rows).
    rewrite IH.
    + rewrite nth_map2; [reflexivity | symmetry; exact Hr | exact Hi].
    + apply Forall_forall. intros r' Hr'.
      rewrite Forall_forall in Hrest. rewrite (Hrest r' Hr').
      symmetry. apply length_map2. symmetry; exact Hr.
    + rewrite length_map2; [exact Hi | symmetry; exact Hr].
Qed.






Lemma position_nth (t : Z) (labels : list Z) (p : nat) :
  position t labels = Some p -> nth_error labels p = Some t.
Proof.
  revert p. induction labels as [|x labels IH]; intros p H.
  - discriminate H.
  - cbn [position] in H. destruct (x =? t)%Z eqn:E.
    + inversion H; subst p. apply Z.eqb_eq in E. subst x. reflexivity.
    + destruct (position t labels) as [q|]; [|discriminate H].
      inversion H; subst p. cbn [nth_error]. apply IH. reflexivity.
Qed.



Section TrimeshProperties.
Variable parse_datetime : string -> option Z.



End TrimeshProperties.

(** ** The theorems on the sample data *)


(** Far outside the mesh, at (9, 9), the nearest node is node 3 and its
    series is returned. *)
Lemma extract_timeseries_selects_nearest_node_witness :
  nearest_node_model sample_ds (Num 9) (Num 9) = Ok 3%Z /\
  ds_getitem "elev" sample_ds = Ok (time_node_array [[Num 1; Num 5; Num 3; Num 7];
                                                      [Num 4; Num 2; Num 6; Num 0]]) /\
  extract_timeseries nearest_node_model sample_ds "elev" (Num 9) (Num 9)
  = Ok (mkDataArray ["time"%string] (row [7; 0]%Z)).
Proof.
  split; [reflexivity|]. split; [reflexivity|].
  rewrite (proj1 (@extract_timeseries_selects_nearest_node nearest_node_model
                    sample_ds "elev" (Num 9) (Num 9) 3%Z
                    (time_node_array [[Num 1; Num 5; Num 3; Num 7];
                                      [Num 4; Num 2; Num 6; Num 0]])
                    eq_refl eq_refl)).
  reflexivity.
Defined.

Lemma extract_timeseries_has_no_mesh_check_witness :
  is_point_in_the_mesh sample_raster (Num (3 # 2)) (Num (3 # 2)) = Ok false /\
  extract_timeseries nearest_node_model sample_ds "elev" (Num (3 # 2)) (Num (3 # 2))
  = Ok (mkDataArray ["time"%string] (row [7; 0]%Z)) /\
  callback nearest_node_model sample_ds "elev" sample_raster
           (Num (3 # 2)) (Num (3 # 2))
  = Ok (empty_curve "elev" (Num (3 # 2)) (Num (3 # 2))).
Proof.
  split; [reflexivity|].
  destruct (@extract_timeseries_has_no_mesh_check nearest_node_model
              sample_ds "elev" sample_raster (Num (3 # 2)) (Num (3 # 2)) 3%Z
              (time_node_array [[Num 1; Num 5; Num 3; Num 7];
                                [Num 4; Num 2; Num 6; Num 0]])
              (mkDataArray ["time"%string] (row [7; 0]%Z))
              eq_refl eq_refl eq_refl eq_refl) as [Hextract [Hcallback _]].
  split; [exact Hextract | exact Hcallback].
Defined.


(** The four branches of [create_trimesh] on the sample data: the
    per-node maximum, the per-node minimum at layer 1, the time step
    labelled 200, and the unreduced table of eight rows. *)
Example create_trimesh_on_samples :
  result_map (fun tm => df_rows (pts_data (tm_nodes tm)))
             (create_trimesh no_parse sample_ds "elev" (TsStr "max") None)
  = Ok [[CFloat (Num 0); CFloat (Num 0); CFloat (Num 4)];
        [CFloat (Num 2); CFloat (Num 0); CFloat (Num 5)];
        [CFloat (Num 0); CFloat (Num 2); CFloat (Num 6)];
        [CFloat (Num 2); CFloat (Num 2); CFloat (Num 7)]] /\
  result_map (fun tm => df_rows (pts_data (tm_nodes tm)))
             (create_trimesh no_parse sample_layered_ds "salt" (TsStr "min") (Some 1%Z))
  = Ok [[CFloat (Num 0); CFloat (Num 0); CFloat (Num 10)];
        [CFloat (Num 2); CFloat (Num 0); CFloat (Num 20)];
        [CFloat (Num 0); CFloat (Num 2); CFloat (Num 30)];
        [CFloat (Num 2); CFloat (Num 2); CFloat (Num 0)]] /\
  result_map (fun tm => df_rows (pts_data (tm_nodes tm)))
             (create_trimesh no_parse sample_ds "elev" (TsTime 200) None)
  = Ok [[CFloat (Num 0); CFloat (Num 0); CFloat (Num 4)];
        [CFloat (Num 2); CFloat (Num 0); CFloat (Num 2)];
        [CFloat (Num 0); CFloat (Num 2); CFloat (Num 6)];
        [CFloat (Num 2); CFloat (Num 2); CFloat (Num 0)]] /\
  result_map (fun tm => List.length (df_rows (pts_data (tm_nodes tm))))
             (create_trimesh no_parse sample_ds "elev" TsNone None)
  = Ok 8%nat.
Proof. repeat split. Qed.

(** [plot_timeseries] on a series of the sample. *)
Example plot_timeseries_on_sample :
  plot_timeseries nearest_node_model (mkDataArray ["time"%string] (row [7; 0]%Z))
                  (Num 2) (Num 2)
  = Raise (NameError "ds").
Proof. reflexivity. Qed.

(** * Further properties of the code *)

(** ** [is_point_in_the_mesh]: failures and covered rasters *)

(** X1.  [is_point_in_the_mesh] fails exactly on a raster that is not
    rendered: [IndexError] when the raster holds no element or has no deep
    dimension, [KeyError] when the first element lacks the data variable;
    nothing else makes it fail, whatever the point. *)
Theorem is_point_in_the_mesh_failures (r : Raster) (lon lat : float) :
  (r_values r = [] -> is_point_in_the_mesh r lon lat = Raise IndexError) /\
  (r_values r <> [] -> r_ddims r = [] ->
   is_point_in_the_mesh r lon lat = Raise IndexError) /\
  (forall img name,
     hd_error (r_values r) = Some img ->
     hd_error (rev (r_ddims r)) = Some name ->
     lookup name (img_data img) = None ->
     is_point_in_the_mesh r lon lat = Raise (KeyError name)) /\
  ((exists b, is_point_in_the_mesh r lon lat = Ok b) <->
   exists img data, rendered r img data).
Proof.
  unfold is_point_in_the_mesh. repeat split.
  - intros ->. reflexivity.
  - intros Hv ->. destruct (r_values r); [contradiction Hv; reflexivity|].
    reflexivity.
  - intros img name -> -> Hl. simpl. rewrite Hl. reflexivity.
  - intros [b H].
    apply bind_Ok in H. destruct H as [img [Hv H]].
    apply bind_Ok in H. destruct H as [name [Hd H]].
    apply bind_Ok in H. destruct H as [data [Hl _]].
    exists img, data, name.
    destruct (hd_error (r_values r)); [|discriminate Hv].
    destruct (hd_error (rev (r_ddims r))); [|discriminate Hd].
    destruct (lookup name (img_data img)); [|discriminate Hl].
    simpl in *. inversion Hv; inversion Hd; inversion Hl; subst.
    repeat split; assumption || reflexivity.
  - intros [img [data [name [Hv [Hd Hl]]]]].
    rewrite Hv, Hd. simpl. rewrite Hl. simpl. eexists; reflexivity.
Qed.

Lemma between_spec (a b x : Q) :
  between a b x = true <-> (a <= x /\ x <= b) \/ (b <= x /\ x <= a).
Proof.
  unfold between. rewrite orb_true_iff, !andb_true_iff, !Qle_bool_iff.
  reflexivity.
Qed.

Lemma between_next (x0 x1 xl x : Q) :
  between x0 xl x = true -> between x0 x1 x = false -> between x1 xl x = true.
Proof.
  intros H Hn. apply between_spec. apply between_spec in H.
  assert (Hn' : ~ ((x0 <= x /\ x <= x1) \/ (x1 <= x /\ x <= x0))).
  { intro Hc. apply between_spec in Hc. congruence. }
  destruct (Qlt_le_dec x x1) as [Hlt|Hge].
  - right. destruct H as [[H0 Hl]|[Hl H0]].
    + exfalso. apply Hn'. left. split; [exact H0 | lra].
    + split; [exact Hl | lra].
  - left. destruct H as [[H0 Hl]|[Hl H0]].
    + split; [exact Hge | exact Hl].
    + exfalso. apply Hn'. right. split; [exact Hge | exact H0].
Qed.

Lemma interp1d_in_range (xs : list Q) (x : Q) :
  forall vs,
    List.length vs = List.length xs ->
    Forall (fun v => isnan v = false) vs ->
    in_axis_range xs x ->
    isnan (interp1d xs vs x) = false.
Proof.
  induction xs as [|x0 xs IH]; intros vs Hlen Hfin [Hn Hb].
  - simpl in Hn. lia.
  - destruct xs as [|x1 xs']; [simpl in Hn; lia|].
    destruct vs as [|v0 [|v1 vs']]; try discriminate Hlen.
    rewrite interp1d_step.
    inversion Hfin as [|? ? Hv0 Hrest]; subst.
    inversion Hrest as [|? ? Hv1 _]; subst.
    destruct (between x0 x1 x) eqn:E.
    + destruct v0; [discriminate Hv0|]. destruct v1; [discriminate Hv1|].
      reflexivity.
    + apply IH.
      * simpl in *. lia.
      * exact Hrest.
      * change (hd 0 (x0 :: x1 :: xs')) with x0 in Hb.
        change (last (x0 :: x1 :: xs') 0) with (last (x1 :: xs') 0) in Hb.
        destruct xs' as [|x2 xs''].
        -- simpl in Hb. congruence.
        -- split; [simpl; lia|].
           change (hd 0 (x1 :: x2 :: xs'')) with x1.
           apply (@between_next x0 x1 _ x Hb E).
Qed.

(** X2.  On a rendered raster whose pixels all hold a number,
    [is_point_in_the_mesh] returns [True] for every point whose longitude
    and latitude lie between the first and the last coordinate of their
    axis. *)
Theorem is_point_in_the_mesh_on_covered_grid
  (r : Raster) (img : Image) (data : list (list float)) (x y : Q) :
  rendered r img data ->
  grid_covered img data ->
  in_axis_range (img_lon img) x ->
  in_axis_range (img_lat img) y ->
  is_point_in_the_mesh r (Num x) (Num y) = Ok true.
Proof.
  intros [name [Hv [Hd Hl]]] [Hrows Hall] Hx Hy.
  unfold is_point_in_the_mesh. rewrite Hv, Hd; simpl. rewrite Hl; simpl.
  unfold interp. rewrite interp1d_in_range; [reflexivity | | | exact Hy].
  - rewrite length_map. exact Hrows.
  - apply Forall_forall. intros v Hin. apply in_map_iff in Hin.
    destruct Hin as [row [<- Hrow]].
    rewrite Forall_forall in Hall. destruct (Hall row Hrow) as [Hlen Hfin].
    apply interp1d_in_range; assumption.
Qed.

Lemma is_point_in_the_mesh_on_covered_grid_witness :
  in_axis_range [0; 1; 2] (3 # 2) /\
  in_axis_range [0; 1; 2] (1 # 2) /\
  is_point_in_the_mesh sample_full_raster (Num (3 # 2)) (Num (1 # 2)) = Ok true.
Proof.
  assert (Hx : in_axis_range [0; 1; 2] (3 # 2)) by (split; [simpl; lia | reflexivity]).
  assert (Hy : in_axis_range [0; 1; 2] (1 # 2)) by (split; [simpl; lia | reflexivity]).
  split; [exact Hx|]. split; [exact Hy|].
  apply (@is_point_in_the_mesh_on_covered_grid sample_full_raster sample_full_image
           [[Num 1; Num 2; Num 3]; [Num 4; Num 5; Num 6]; [Num 7; Num 8; Num 9]]
           (3 # 2) (1 # 2)).
  - exists "elev"%string. repeat split.
  - split; [reflexivity|]. repeat constructor.
  - exact Hx.
  - exact Hy.
Defined.

(** ** The stream pipeline: ranges, missing columns, layers *)



Lemma ds_isel_missing_dimension (d : string) (i : Z) (ds : Dataset) :
  lookup d (ds_dims ds) = None ->
  ds_isel d i ds = Raise (ValueError "Dimensions do not exist").
Proof. intro H. unfold ds_isel, dim_size. rewrite H. reflexivity. Qed.

Lemma normalize_index_out_of_range (n : nat) (i : Z) :
  (i < - Z.of_nat n \/ Z.of_nat n <= i)%Z ->
  normalize_index n i = Raise IndexError.
Proof.
  intro H. unfold normalize_index.
  destruct (i <? 0)%Z eqn:E.
  - apply Z.ltb_lt in E.
    assert ((0 <=? i + Z.of_nat n)%Z = false) as -> by (apply Z.leb_gt; lia).
    reflexivity.
  - apply Z.ltb_ge in E.
    assert ((i <? Z.of_nat n)%Z = false) as -> by (apply Z.ltb_ge; lia).
    rewrite andb_false_r. reflexivity.
Qed.

Lemma ds_isel_out_of_range (d : string) (i : Z) (ds : Dataset) (n : nat) :
  lookup d (ds_dims ds) = Some n ->
  (i < - Z.of_nat n \/ Z.of_nat n <= i)%Z ->
  ds_isel d i ds = Raise IndexError.
Proof.
  intros Hd Hi. unfold ds_isel, dim_size. rewrite Hd. cbn [of_option bind].
  rewrite normalize_index_out_of_range by exact Hi. reflexivity.
Qed.

Section FurtherStreamProperties.
Variable get_index_of_nearest_node : Dataset -> float -> float -> result Z.
Variable parse_datetime : string -> option Z.



(** X5.  A layer given for a dataset without a [layer] dimension makes
    [create_trimesh] and [_get_stream_timeseries] (with a supported stream
    class) raise [ValueError], and a layer outside [-n, n) for a [layer]
    dimension of size n makes them raise [IndexError], whatever the
    variable and the timestamp are. *)
Theorem layer_selection_errors
  (ds : Dataset) (variable : string) (ts : timestamp) (r : Raster)
  (c : stream_class) (l : Z) :
  (lookup "layer" (ds_dims ds) = None ->
   create_trimesh parse_datetime ds variable ts (Some l)
   = Raise (ValueError "Dimensions do not exist") /\
   (in_tap_pointer c = true ->
    _get_stream_timeseries get_index_of_nearest_node ds variable r c (Some l)
    = Raise (ValueError "Dimensions do not exist"))) /\
  (forall n,
     lookup "layer" (ds_dims ds) = Some n ->
     (l < - Z.of_nat n \/ Z.of_nat n <= l)%Z ->
     create_trimesh parse_datetime ds variable ts (Some l) = Raise IndexError /\
     (in_tap_pointer c = true ->
      _get_stream_timeseries get_index_of_nearest_node ds variable r c (Some l)
      = Raise IndexError)).
Proof.
  split.
  - intro Hd. split.
    + unfold create_trimesh. rewrite ds_isel_missing_dimension by exact Hd.
      reflexivity.
    + intro Hc. unfold _get_stream_timeseries. rewrite Hc. cbn [negb].
      rewrite ds_isel_missing_dimension by exact Hd. reflexivity.
  - intros n Hd Hl. split.
    + unfold create_trimesh. rewrite (ds_isel_out_of_range _ _ Hd Hl).
      reflexivity.
    + intro Hc. unfold _get_stream_timeseries. rewrite Hc. cbn [negb].
      rewrite (ds_isel_out_of_range _ _ Hd Hl). reflexivity.
Qed.

(** X6.  A falsy timestamp (None or the empty string) gives the mesh of
    the unreduced data, the same as None does; and for a falsy timestamp,
    ["max"] and ["min"] no date is ever read from the timestamp. *)
Theorem falsy_timestamp_is_unreduced
  (ds : Dataset) (variable : string) (ts : timestamp) (layer : option Z) :
  (truthy ts = false ->
   create_trimesh parse_datetime ds variable ts layer
   = create_trimesh parse_datetime ds variable TsNone layer) /\
  (truthy ts = false \/ ts = TsStr "max" \/ ts = TsStr "min" ->
   forall parse,
     create_trimesh parse ds variable ts layer
     = create_trimesh parse_datetime ds variable ts layer).
Proof.
  split.
  - intro H. destruct ts as [|s|t]; try discriminate H; [reflexivity|].
    simpl in H. apply negb_false_iff, String.eqb_eq in H. subst s. reflexivity.
  - intros [H | [-> | ->]] parse; try reflexivity.
    destruct ts as [|s|t]; try discriminate H; [reflexivity|].
    simpl in H. apply negb_false_iff, String.eqb_eq in H. subst s. reflexivity.
Qed.

End FurtherStreamProperties.



(** ** [create_trimesh] on a plain mesh dataset *)

Lemma multi_indices_node (n : nat) :
  multi_indices [("node"%string, n)] = map (fun i => [("node"%string, i)]) (seq 0 n).
Proof.
  cbn [multi_indices]. generalize (seq 0 n). intro l.
  induction l as [|i l IH]; [reflexivity|].
  simpl. rewrite <- IH. reflexivity.
Qed.

Lemma da_at_node_array (i : nat) (l : list float) :
  (i < List.length l)%nat ->
  da_at [("node"%string, i)] (node_array l) = Ok (nth i l NaN).
Proof.
  intro H. unfold da_at, node_array, row_of. cbn [da_dims da_values mapM].
  change (lookup "node" [("node"%string, i)]) with (Some i).
  cbn [of_option bind nd_at].
  rewrite nth_error_map.
  rewrite (nth_error_nth' l NaN H). reflexivity.
Qed.

(** A dataset over [node] alone becomes a table with one row per node. *)
Lemma to_dataframe_per_node (variable : string) (lons lats values : list float)
  (tri : option (list (Z * Z * Z))) :
  List.length lats = List.length lons ->
  List.length values = List.length lons ->
  to_dataframe
    (mkDataset [("node"%string, List.length lons)] []
       [("lon"%string, node_array lons); ("lat"%string, node_array lats);
        (variable, node_array values)] tri)
  = Ok (mkDataFrame ["node"%string] ["lon"%string; "lat"%string; variable]
          (df_rows (node_table variable lons lats values))).
Proof.
  intros Hlat Hval. unfold to_dataframe.
  cbn [ds_dims ds_coords ds_vars scalar_coords flat_map map fst snd app].
  rewrite multi_indices_node.
  rewrite (mapM_Ok_map _
             (fun env => [CFloat (nth (snd (hd ("node"%string, O) env)) lons NaN);
                          CFloat (nth (snd (hd ("node"%string, O) env)) lats NaN);
                          CFloat (nth (snd (hd ("node"%string, O) env)) values NaN)])).
  - cbn [bind]. rewrite map_map. reflexivity.
  - intros env Henv. apply in_map_iff in Henv. destruct Henv as [i [<- Hi]].
    apply in_seq in Hi. cbn [mapM snd hd].
    rewrite !da_at_node_array by lia. reflexivity.
Qed.

Lemma eqb_neq_false (a b : string) : a <> b -> String.eqb a b = false.
Proof. intro H. apply String.eqb_neq. exact H. Qed.

Lemma ds_getitems_mesh (variable : string) (dims : list (string * nat))
  (coords : list (string * coord)) (a b v : DataArray)
  (tri : option (list (Z * Z * Z))) :
  variable <> "lon"%string -> variable <> "lat"%string ->
  ds_getitems ["lon"; "lat"; variable]%string
    (mkDataset dims coords
       [("lon"%string, a); ("lat"%string, b); (variable, v)] tri)
  = Ok (mkDataset
          (filter (fun p => mem (fst p) (da_dims a ++ da_dims b ++ da_dims v)) dims)
          (filter (keep_coord (da_dims a ++ da_dims b ++ da_dims v)) coords)
          [("lon"%string, a); ("lat"%string, b); (variable, v)] None).
Proof.
  intros Hlon Hlat. unfold ds_getitems, ds_getitem.
  cbn [mapM ds_vars lookup].
  change (String.eqb "lon" "lon") with true.
  change (String.eqb "lat" "lon") with false.
  change (String.eqb "lat" "lat") with true.
  rewrite (eqb_neq_false Hlon), (eqb_neq_false Hlat), String.eqb_refl.
  cbn [of_option bind ds_dims ds_coords].
  unfold dims_used. cbn [flat_map snd]. rewrite app_nil_r. reflexivity.
Qed.

Lemma fold_map2_length (f : float -> float -> float) (rows : list (list float)) :
  forall r0,
    Forall (fun row => List.length row = List.length r0) rows ->
    List.length (fold_left (map2 f) rows r0) = List.length r0.
Proof.
  induction rows as [|r rows IH]; intros r0 Hall.
  - reflexivity.
  - inversion Hall as [|? ? Hr Hrest]; subst. cbn [fold_left].
    rewrite IH.
    + apply length_map2. symmetry; exact Hr.
    + apply Forall_forall. intros r' Hr'.
      rewrite Forall_forall in Hrest. rewrite (Hrest r' Hr').
      symmetry. apply length_map2. symmetry; exact Hr.
Qed.

Lemma var_reduce_node_array (f : float -> float -> float) (l : list float) :
  var_reduce f "time" (node_array l) = Ok (node_array l).
Proof. reflexivity. Qed.

Lemma var_reduce_time_node_array (f : float -> float -> float)
  (r0 : list float) (rows : list (list float)) :
  Forall (fun row => List.length row = List.length r0) rows ->
  var_reduce f "time" (time_node_array (r0 :: rows))
  = Ok (node_array (fold_left (map2 f) rows r0)).
Proof.
  intro Hall. unfold var_reduce, time_node_array. cbn [da_dims da_values].
  change (index_of "time" ["time"%string; "node"%string]) with (Some 0%nat).
  cbv beta iota. rewrite reduce_axis_time by exact Hall. reflexivity.
Qed.

Lemma reduced_mesh_table
  (f : float -> float -> float) (variable : string) (labels : list Z)
  (lons lats r0 : list float) (rows : list (list float))
  (tri : option (list (Z * Z * Z))) :
  variable <> "lon"%string -> variable <> "lat"%string ->
  List.length lats = List.length lons ->
  List.length r0 = List.length lons ->
  Forall (fun row => List.length row = List.length r0) rows ->
  (sub <- ds_getitems ["lon"; "lat"; variable]%string
            (mesh_dataset variable labels lons lats (r0 :: rows) tri) ;;
   red <- ds_reduce f "time" sub ;;
   to_dataframe red)
  = Ok (mkDataFrame ["node"%string] ["lon"%string; "lat"%string; variable]
          (df_rows (node_table variable lons lats (fold_left (map2 f) rows r0)))).
Proof.
  intros Hlon Hlat Hlats Hr0 Hall. unfold mesh_dataset.
  rewrite ds_getitems_mesh by assumption. cbn [bind].
  unfold ds_reduce, has_dim.
  cbn [node_array time_node_array da_dims app ds_dims ds_coords ds_vars].
  fold (node_array lons). fold (node_array lats).
  fold (time_node_array (r0 :: rows)).
  change (filter (fun p : string * nat =>
                    mem (fst p) ["node"%string; "node"%string; "time"%string;
                                 "node"%string])
                 [("time"%string, List.length (r0 :: rows));
                  ("node"%string, List.length lons)])
    with [("time"%string, List.length (r0 :: rows));
          ("node"%string, List.length lons)].
  change (filter (keep_coord ["node"%string; "node"%string; "time"%string;
                              "node"%string])
                 [("time"%string, IndexCoord labels)])
    with [("time"%string, IndexCoord labels)].
  change (mem "time" (map fst [("time"%string, List.length (r0 :: rows));
                               ("node"%string, List.length lons)]))
    with true.
  cbn [negb mapM]. unfold on_snd. cbn [fst snd].
  rewrite !var_reduce_node_array.
  rewrite var_reduce_time_node_array by exact Hall. cbn [bind].
  unfold remove_dim.
  change (filter (fun p : string * nat => negb (String.eqb (fst p) "time"))
                 [("time"%string, List.length (r0 :: rows));
                  ("node"%string, List.length lons)])
    with [("node"%string, List.length lons)].
  change (filter (fun c : string * coord => negb (String.eqb (fst c) "time"))
                 [("time"%string, IndexCoord labels)])
    with (@nil (string * coord)).
  apply to_dataframe_per_node.
  - exact Hlats.
  - rewrite fold_map2_length by exact Hall. exact Hr0.
Qed.

Lemma position_lt (t : Z) (labels : list Z) (p : nat) :
  position t labels = Some p -> (p < List.length labels)%nat.
Proof.
  intro H. apply position_nth in H.
  apply nth_error_Some. congruence.
Qed.






Lemma mem_filtered_dims (d : string) (used : list string)
  (dims : list (string * nat)) :
  mem d used = false ->
  mem d (map fst (filter (fun p => mem (fst p) used) dims)) = false.
Proof.
  intro H. induction dims as [|[k n] dims IH]; [reflexivity|].
  cbn [filter fst]. destruct (mem k used) eqn:E; [|exact IH].
  cbn [map fst]. unfold mem in *. cbn [existsb].
  destruct (String.eqb d k) eqn:Edk.
  - apply String.eqb_eq in Edk. subst k. congruence.
  - exact IH.
Qed.

Section TrimeshOnMeshDataset.
Variable parse_datetime : string -> option Z.

(** X7.  On a plain mesh dataset, the timestamps ["max"] and ["min"] give
    a mesh whose point table has exactly one row per node, in node order:
    the longitude and latitude of the node and the largest, respectively
    smallest, value of the variable at that node over the time steps.
    The rows so line up with the node numbers of the connectivity
    table. *)
Theorem create_trimesh_reduced_points
  (variable : string) (labels : list Z) (lons lats r0 : list float)
  (rows : list (list float)) (simplices : list (Z * Z * Z)) :
  variable <> "lon"%string -> variable <> "lat"%string ->
  List.length lats = List.length lons ->
  List.length r0 = List.length lons ->
  Forall (fun row => List.length row = List.length r0) rows ->
  let ds := mesh_dataset variable labels lons lats (r0 :: rows) (Some simplices) in
  exists maxima minima,
    create_trimesh parse_datetime ds variable (TsStr "max") None
    = Ok (mesh_over variable simplices (node_table variable lons lats maxima)) /\
    create_trimesh parse_datetime ds variable (TsStr "min") None
    = Ok (mesh_over variable simplices (node_table variable lons lats minima)) /\
    reduced_per_node nanmax r0 rows maxima /\
    reduced_per_node nanmin r0 rows minima.
Proof.
  intros Hlon Hlat Hlats Hr0 Hall ds. subst ds.
  exists (fold_left (map2 nanmax) rows r0), (fold_left (map2 nanmin) rows r0).
  split; [|split; [|split]].
  - unfold create_trimesh. cbn [bind].
    change (ts_eq_str (TsStr "max") "max") with true. cbv beta iota.
    unfold ds_max.
    rewrite (@reduced_mesh_table nanmax variable labels lons lats r0 rows
               (Some simplices) Hlon Hlat Hlats Hr0 Hall).
    reflexivity.
  - unfold create_trimesh. cbn [bind].
    change (ts_eq_str (TsStr "min") "max") with false.
    change (ts_eq_str (TsStr "min") "min") with true. cbv beta iota.
    unfold ds_min.
    rewrite (@reduced_mesh_table nanmin variable labels lons lats r0 rows
               (Some simplices) Hlon Hlat Hlats Hr0 Hall).
    reflexivity.
  - split; [apply fold_map2_length; exact Hall|].
    intros i Hi. apply nth_fold_map2; assumption.
  - split; [apply fold_map2_length; exact Hall|].
    intros i Hi. apply nth_fold_map2; assumption.
Qed.


(** X9.  When none of [lon], [lat] and the variable varies in time, the
    timestamps ["max"] and ["min"] make [create_trimesh] raise
    [ValueError]: the reduction over [time] is asked of a dataset that no
    longer has that dimension. *)
Theorem reduction_needs_time_dimension
  (ds : Dataset) (variable : string) (a b v : DataArray) :
  lookup "lon" (ds_vars ds) = Some a ->
  lookup "lat" (ds_vars ds) = Some b ->
  lookup variable (ds_vars ds) = Some v ->
  mem "time" (da_dims a ++ da_dims b ++ da_dims v) = false ->
  create_trimesh parse_datetime ds variable (TsStr "max") None
  = Raise (ValueError "Dataset does not contain the dimensions") /\
  create_trimesh parse_datetime ds variable (TsStr "min") None
  = Raise (ValueError "Dataset does not contain the dimensions").
Proof.
  intros Ha Hb Hv Hmem.
  assert (Hsub : forall f,
             (sub <- ds_getitems ["lon"; "lat"; variable]%string ds ;;
              red <- ds_reduce f "time" sub ;;
              to_dataframe red)
             = Raise (ValueError "Dataset does not contain the dimensions")).
  { intro f. unfold ds_getitems, ds_getitem. cbn [mapM].
    rewrite Ha, Hb, Hv. cbn [of_option bind].
    unfold ds_reduce, has_dim, dims_used. cbn [ds_dims flat_map snd].
    rewrite app_nil_r. rewrite mem_filtered_dims by exact Hmem.
    reflexivity. }
  split.
  - unfold create_trimesh. cbn [bind].
    change (ts_eq_str (TsStr "max") "max") with true. cbv beta iota.
    unfold ds_max. rewrite Hsub. reflexivity.
  - unfold create_trimesh. cbn [bind].
    change (ts_eq_str (TsStr "min") "max") with false.
    change (ts_eq_str (TsStr "min") "min") with true. cbv beta iota.
    unfold ds_min. rewrite Hsub. reflexivity.
Qed.

End TrimeshOnMeshDataset.

Lemma create_trimesh_reduced_points_witness :
  exists maxima minima,
    create_trimesh no_parse
      (mesh_dataset "elev" [100; 200]%Z
         [Num 0; Num 2; Num 0; Num 2] [Num 0; Num 0; Num 2; Num 2]
         [[Num 1; Num 5; Num 3; Num 7]; [Num 4; Num 2; Num 6; Num 0]]
         (Some [(0, 1, 2); (1, 3, 2)]%Z))
      "elev" (TsStr "max") None
    = Ok (mesh_over "elev" [(0, 1, 2); (1, 3, 2)]%Z
            (node_table "elev" [Num 0; Num 2; Num 0; Num 2]
               [Num 0; Num 0; Num 2; Num 2] maxima)) /\
    create_trimesh no_parse
      (mesh_dataset "elev" [100; 200]%Z
         [Num 0; Num 2; Num 0; Num 2] [Num 0; Num 0; Num 2; Num 2]
         [[Num 1; Num 5; Num 3; Num 7]; [Num 4; Num 2; Num 6; Num 0]]
         (Some [(0, 1, 2); (1, 3, 2)]%Z))
      "elev" (TsStr "min") None
    = Ok (mesh_over "elev" [(0, 1, 2); (1, 3, 2)]%Z
            (node_table "elev" [Num 0; Num 2; Num 0; Num 2]
               [Num 0; Num 0; Num 2; Num 2] minima)) /\
    reduced_per_node nanmax [Num 1; Num 5; Num 3; Num 7]
      [[Num 4; Num 2; Num 6; Num 0]] maxima /\
    reduced_per_node nanmin [Num 1; Num 5; Num 3; Num 7]
      [[Num 4; Num 2; Num 6; Num 0]] minima.
Proof.
  apply (@create_trimesh_reduced_points no_parse "elev" [100; 200]%Z
           [Num 0; Num 2; Num 0; Num 2] [Num 0; Num 0; Num 2; Num 2]
           [Num 1; Num 5; Num 3; Num 7] [[Num 4; Num 2; Num 6; Num 0]]
           [(0, 1, 2); (1, 3, 2)]%Z).
  - discriminate.
  - discriminate.
  - reflexivity.
  - reflexivity.
  - repeat constructor.
Defined.


Lemma reduction_needs_time_dimension_witness :
  create_trimesh no_parse sample_static_ds "depth" (TsStr "max") None
  = Raise (ValueError "Dataset does not contain the dimensions") /\
  create_trimesh no_parse sample_static_ds "depth" (TsStr "min") None
  = Raise (ValueError "Dataset does not contain the dimensions").
Proof.
  apply (@reduction_needs_time_dimension no_parse sample_static_ds "depth"
           (mkDataArray ["node"%string] (row [0; 2; 0; 2]%Z))
           (mkDataArray ["node"%string] (row [0; 0; 2; 2]%Z))
           (mkDataArray ["node"%string] (row [9; 8; 7; 6]%Z)));
    reflexivity.
Defined.

(** ** [generate_mesh_polygon]: missing nodes, default labels *)

Lemma mapM_Ok_In (A B : Type) (f : A -> result B) (l : list A) (ys : list B) :
  mapM f l = Ok ys ->
  forall x, In x l -> exists y, f x = Ok y /\ In y ys.
Proof.
  revert ys. induction l as [|a l IH]; intros ys H x Hx.
  - destruct Hx.
  - cbn [mapM] in H. apply bind_Ok in H. destruct H as [y [Hy H]].
    apply bind_Ok in H. destruct H as [rest [Hrest H]].
    inversion H; subst ys; clear H.
    destruct Hx as [<-|Hx].
    + exists y. split; [exact Hy | left; reflexivity].
    + destruct (IH rest Hrest x Hx) as [z [Hz Hin]].
      exists z. split; [exact Hz | right; exact Hin].
Qed.

Lemma mapM_Ok_exists (A B : Type) (f : A -> result B) (l : list A) :
  (forall x, In x l -> exists y, f x = Ok y) ->
  exists ys, mapM f l = Ok ys.
Proof.
  induction l as [|a l IH]; intro H.
  - exists []. reflexivity.
  - destruct (H a (or_introl eq_refl)) as [y Hy].
    destruct IH as [ys Hys]; [intros x Hx; apply H; right; exact Hx|].
    exists (y :: ys). cbn [mapM]. rewrite Hy, Hys. reflexivity.
Qed.

Lemma node_point_from_takes (nodes : list Z) (lons lats : list float)
  (tri : list (Z * Z * Z)) (proj : Z * Z * Z -> Z)
  (ns : list Z) (xs ys : list float) :
  take nodes (map proj tri) = Ok ns ->
  take lons ns = Ok xs ->
  take lats ns = Ok ys ->
  forall t, In t tri -> exists pt, node_point nodes lons lats (proj t) = Ok pt.
Proof.
  intros Hns Hxs Hys t Ht. unfold take in *.
  destruct (mapM_Ok_In _ _ Hns (proj t) (in_map proj tri t Ht)) as [l [Hl Hin]].
  destruct (mapM_Ok_In _ _ Hxs l Hin) as [x [Hx _]].
  destruct (mapM_Ok_In _ _ Hys l Hin) as [y [Hy _]].
  exists (x, y). unfold node_point. rewrite Hl; cbn [bind].
  rewrite Hx; cbn [bind]. rewrite Hy. reflexivity.
Qed.





Section FurtherMeshPolygonProperties.
Variables Geometry Wkt ShapelyGeometry : Type.
Variable polygon : list point -> Geometry.
Variable coverage_union_all : list Geometry -> Geometry.
Variable to_wkt : Geometry -> Wkt.
Variable wkt_loads : Wkt -> ShapelyGeometry.


(** X10.  When the node coordinate, [lon], [lat] and the connectivity
    table can be read but some triangle names a node whose label or
    coordinates cannot be looked up, [generate_mesh_polygon] raises
    [IndexError] and builds no geometry. *)
Theorem generate_mesh_polygon_missing_node
  (ds : Dataset) (tri : list (Z * Z * Z)) (nodes : list Z)
  (lons lats : list float) (e : exn) :
  ds_triface_nodes ds = Some tri ->
  node_values ds = Ok nodes ->
  values_1d "lon" ds = Ok lons ->
  values_1d "lat" ds = Ok lats ->
  mapM (triangle_ring nodes lons lats) tri = Raise e ->
  generate_mesh_polygon polygon coverage_union_all to_wkt wkt_loads ds
  = Raise IndexError.
Proof.
  intros Htri Hnodes Hlon Hlat Hrings.
  unfold generate_mesh_polygon, polygons_coords, triface_values.
  rewrite Hnodes, Htri, Hlon, Hlat. cbn [bind of_option].
  destruct (take nodes (map (fun t => fst (fst t)) tri)) as [fn|e1] eqn:E1;
    [|apply take_Raise in E1; subst e1; reflexivity].
  destruct (take nodes (map (fun t => snd (fst t)) tri)) as [sn|e2] eqn:E2;
    [|apply take_Raise in E2; subst e2; reflexivity].
  destruct (take nodes (map (fun t => snd t) tri)) as [tn|e3] eqn:E3;
    [|apply take_Raise in E3; subst e3; reflexivity].
  cbn [bind].
  destruct (take lons fn) as [fx|e4] eqn:E4;
    [|apply take_Raise in E4; subst e4; reflexivity].
  destruct (take lats fn) as [fy|e5] eqn:E5;
    [|apply take_Raise in E5; subst e5; reflexivity].
  destruct (take lons sn) as [sx|e6] eqn:E6;
    [|apply take_Raise in E6; subst e6; reflexivity].
  destruct (take lats sn) as [sy|e7] eqn:E7;
    [|apply take_Raise in E7; subst e7; reflexivity].
  destruct (take lons tn) as [tx|e8] eqn:E8;
    [|apply take_Raise in E8; subst e8; reflexivity].
  destruct (take lats tn) as [ty|e9] eqn:E9;
    [|apply take_Raise in E9; subst e9; reflexivity].
  exfalso.
  destruct (@mapM_Ok_exists _ _ (triangle_ring nodes lons lats) tri) as [rings Hok].
  - intros [[a b] c] Ht.
    destruct (@node_point_from_takes nodes lons lats tri _ fn fx fy
                E1 E4 E5 (a, b, c) Ht) as [pa Ha].
    destruct (@node_point_from_takes nodes lons lats tri _ sn sx sy
                E2 E6 E7 (a, b, c) Ht) as [pb Hb].
    destruct (@node_point_from_takes nodes lons lats tri _ tn tx ty
                E3 E8 E9 (a, b, c) Ht) as [pc Hc].
    cbn [fst snd] in Ha, Hb, Hc.
    exists [pa; pb; pc; pa]. unfold triangle_ring.
    rewrite Ha; cbn [bind]. rewrite Hb; cbn [bind]. rewrite Hc. reflexivity.
  - congruence.
Qed.


End FurtherMeshPolygonProperties.

Lemma generate_mesh_polygon_missing_node_witness :
  mapM (triangle_ring [0; 1; 2; 3]%Z
                      [Num 0; Num 2; Num 0; Num 2] [Num 0; Num 0; Num 2; Num 2])
       [(0, 1, 2); (1, 4, 2)]%Z
  = Raise IndexError /\
  generate_mesh_polygon SymPolygon SymCoverageUnion (fun g => g) (fun w => w)
                        sample_broken_ds
  = Raise IndexError.
Proof.
  split; [reflexivity|].
  apply (@generate_mesh_polygon_missing_node
           sym_geometry sym_geometry sym_geometry
           SymPolygon SymCoverageUnion (fun g => g) (fun w => w)
           sample_broken_ds [(0, 1, 2); (1, 4, 2)]%Z [0; 1; 2; 3]%Z
           [Num 0; Num 2; Num 0; Num 2] [Num 0; Num 0; Num 2; Num 2]
           IndexError);
    reflexivity.
Defined.


(** ** [extract_timeseries] on a variable over (time, node) *)


Section FurtherExtraction.
Variable get_index_of_nearest_node : Dataset -> float -> float -> result Z.


End FurtherExtraction.


(** ** [create_trimesh] without a reduction *)

Lemma nd_at_row_of (j : nat) (l : list float) :
  (j < List.length l)%nat -> nd_at [j] (row_of l) = Ok (nth j l NaN).
Proof.
  intro H. unfold row_of. cbn [nd_at]. rewrite nth_error_map.
  rewrite (nth_error_nth' l NaN H). reflexivity.
Qed.

Lemma in_multi_indices_time_node (T N : nat) (env : list (string * nat)) :
  In env (multi_indices [("time"%string, T); ("node"%string, N)]) ->
  exists i j, env = [("time"%string, i); ("node"%string, j)] /\
              (i < T)%nat /\ (j < N)%nat.
Proof.
  change (multi_indices [("time"%string, T); ("node"%string, N)])
    with (flat_map (fun i => map (cons ("time"%string, i))
                                 (multi_indices [("node"%string, N)]))
                   (seq 0 T)).
  rewrite multi_indices_node. intro H.
  apply in_flat_map in H. destruct H as [i [Hi H]].
  apply in_map_iff in H. destruct H as [e [<- He]].
  apply in_map_iff in He. destruct He as [j [<- Hj]].
  apply in_seq in Hi. apply in_seq in Hj.
  exists i, j. repeat split; lia.
Qed.

Lemma length_multi_indices_time_node (T N : nat) :
  List.length (multi_indices [("time"%string, T); ("node"%string, N)])
  = (T * N)%nat.
Proof.
  change (multi_indices [("time"%string, T); ("node"%string, N)])
    with (flat_map (fun i => map (cons ("time"%string, i))
                                 (multi_indices [("node"%string, N)]))
                   (seq 0 T)).
  rewrite multi_indices_node.
  assert (H : forall l : list nat,
             List.length
               (flat_map (fun i => map (cons ("time"%string, i))
                                       (map (fun j => [("node"%string, j)])
                                            (seq 0 N))) l)
             = (List.length l * N)%nat).
  { induction l as [|i l IH]; [reflexivity|].
    cbn [flat_map List.length]. rewrite length_app, IH, !length_map, length_seq.
    reflexivity. }
  rewrite H, length_seq. reflexivity.
Qed.

Section UnreducedTable.
Variable parse_datetime : string -> option Z.

(** X13.  On a plain mesh dataset a falsy timestamp gives a mesh whose
    point table has one row for every pair of a time step and a node, so
    more rows than the connectivity table has nodes as soon as there is
    more than one time step. *)
Theorem create_trimesh_unreduced_rows
  (variable : string) (labels : list Z) (lons lats : list float)
  (rows : list (list float)) (simplices : list (Z * Z * Z)) (ts : timestamp) :
  variable <> "lon"%string -> variable <> "lat"%string ->
  List.length lats = List.length lons ->
  Forall (fun row => List.length row = List.length lons) rows ->
  truthy ts = false ->
  exists tm,
    create_trimesh parse_datetime
      (mesh_dataset variable labels lons lats rows (Some simplices))
      variable ts None = Ok tm /\
    tm_simplices tm = simplices /\
    List.length (df_rows (pts_data (tm_nodes tm)))
    = (List.length rows * List.length lons)%nat.
Proof.
  intros Hlon Hlat Hlats Hall Hts.
  assert (Hmax : ts_eq_str ts "max" = false).
  { destruct ts as [|s|t]; try reflexivity. simpl in Hts.
    apply negb_false_iff, String.eqb_eq in Hts. subst s. reflexivity. }
  assert (Hmin : ts_eq_str ts "min" = false).
  { destruct ts as [|s|t]; try reflexivity. simpl in Hts.
    apply negb_false_iff, String.eqb_eq in Hts. subst s. reflexivity. }
  unfold create_trimesh. cbn [bind]. rewrite Hmax, Hmin, Hts.
  unfold mesh_dataset. rewrite ds_getitems_mesh by assumption. cbn [bind].
  cbn [node_array time_node_array da_dims app].
  change (filter (fun p : string * nat =>
                    mem (fst p) ["node"%string; "node"%string; "time"%string;
                                 "node"%string])
                 [("time"%string, List.length rows);
                  ("node"%string, List.length lons)])
    with [("time"%string, List.length rows);
          ("node"%string, List.length lons)].
  fold (node_array lons). fold (node_array lats). fold (time_node_array rows).
  unfold to_dataframe. cbn [ds_dims ds_vars].
  destruct (@mapM_Ok_exists _ _
              (fun env =>
                 vs <- mapM (fun v : string * DataArray => da_at env (snd v))
                         [("lon"%string, node_array lons);
                          ("lat"%string, node_array lats);
                          (variable, time_node_array rows)] ;;
                 Ok (map CFloat vs ++
                     map (fun c : string * Z => CLabel (snd c))
                       (scalar_coords
                          (ds_coords
                             (mkDataset
                                [("time"%string, List.length rows);
                                 ("node"%string, List.length lons)]
                                (filter
                                   (keep_coord
                                      ["node"%string; "node"%string;
                                       "time"%string; "node"%string])
                                   [("time"%string, IndexCoord labels)])
                                [("lon"%string, node_array lons);
                                 ("lat"%string, node_array lats);
                                 (variable, time_node_array rows)]
                                None)))))
              (multi_indices [("time"%string, List.length rows);
                              ("node"%string, List.length lons)]))
    as [table Htable].
  - intros env Henv. apply in_multi_indices_time_node in Henv.
    destruct Henv as [i [j [-> [Hi Hj]]]].
    cbn [mapM snd]. unfold da_at, node_array, time_node_array.
    cbn [da_dims da_values mapM].
    change (lookup "node" [("time"%string, i); ("node"%string, j)]) with (Some j).
    change (lookup "time" [("time"%string, i); ("node"%string, j)]) with (Some i).
    cbn [of_option bind].
    rewrite !nd_at_row_of by lia. cbn [bind nd_at].
    rewrite nth_error_map.
    destruct (nth_error rows i) as [row|] eqn:Erow.
    + cbn [option_map of_option bind].
      assert (Hrow : List.length row = List.length lons).
      { rewrite Forall_forall in Hall. apply Hall.
        apply (nth_error_In _ _ Erow). }
      fold (nd_at [j] (row_of row)).
      rewrite nd_at_row_of by lia. cbn [bind]. eexists; reflexivity.
    + apply nth_error_None in Erow. lia.
  - rewrite Htable. cbn [bind of_option ds_triface_nodes].
    eexists. split; [reflexivity|]. split; [reflexivity|].
    cbn [tm_nodes pts_data reset_index_drop df_rows].
    rewrite (mapM_Ok_length _ _ Htable).
    apply length_multi_indices_time_node.
Qed.

End UnreducedTable.

Lemma create_trimesh_unreduced_rows_witness :
  exists tm,
    create_trimesh no_parse
      (mesh_dataset "elev" [100; 200]%Z
         [Num 0; Num 2; Num 0; Num 2] [Num 0; Num 0; Num 2; Num 2]
         [[Num 1; Num 5; Num 3; Num 7]; [Num 4; Num 2; Num 6; Num 0]]
         (Some [(0, 1, 2); (1, 3, 2)]%Z))
      "elev" (TsStr "") None = Ok tm /\
    tm_simplices tm = [(0, 1, 2); (1, 3, 2)]%Z /\
    List.length (df_rows (pts_data (tm_nodes tm))) = 8%nat.
Proof.
  apply (@create_trimesh_unreduced_rows no_parse "elev" [100; 200]%Z
           [Num 0; Num 2; Num 0; Num 2] [Num 0; Num 0; Num 2; Num 2]
           [[Num 1; Num 5; Num 3; Num 7]; [Num 4; Num 2; Num 6; Num 0]]
           [(0, 1, 2); (1, 3, 2)]%Z (TsStr "")).
  - discriminate.
  - discriminate.
  - reflexivity.
  - repeat constructor.
  - reflexivity.
Defined.

(** ** The stream callback on a plain mesh dataset *)




Section CallbackOnMeshDataset.
Variable get_index_of_nearest_node : Dataset -> float -> float -> result Z.


End CallbackOnMeshDataset.

